(** * HiOp: the NLP formulation layer (src/Optimization/hiopNlpFormulation.hpp)

    A shallow embedding of the inline methods of [hiopNlpFormulation],
    [hiopNlpDenseConstraints] and [hiopNlpMDS].

    Conventions of the embedding
    - [long long] and [int] values are integers of [Z]; narrowing casts and
      64-bit additions are written with their two's complement wrap-around.
    - [double] is IEEE binary64 (Rocq's primitive floats).  The header never
      computes with doubles, it only moves them.
    - A raw array pointer is the list it points to; a pointer that may be
      [NULL] is an [option].  An array handed to a callback through a
      non-const pointer comes back as the callback left it.
    - Methods run in a monad that threads the object ([this]), the state
      owned by the user's callbacks and the trace of calls that cross the
      boundary of the class (user callbacks, logger); a run ends by
      returning, by a failed [assert], by a C++ exception, or in behaviour
      the language leaves undefined.
    - [assert] is the macro of <cassert>: it checks its argument unless the
      translation unit is compiled with [NDEBUG], in which case it expands
      to nothing.  The build flag is the parameter [NDEBUG] below. *)

From Stdlib Require Import ZArith List Bool Lia String Ascii Floats Permutation.
Import ListNotations.
Local Open Scope Z_scope.

(** ** Machine data *)

Definition double := float.

(** Two's complement wrap-around of a [w]-bit signed integer. *)
Definition wrap (w : Z) (z : Z) : Z := (z + 2 ^ (w - 1)) mod 2 ^ w - 2 ^ (w - 1).

(** The cast [(int)e] of a [long long]. *)
Definition to_int (z : Z) : Z := wrap 32 z.

(** [a + b] on [long long]. *)
Definition add_ll (a b : Z) : Z := wrap 64 (a + b).

Definition LLONG_MIN : Z := - 2 ^ 63.
Definition LLONG_MAX : Z := 2 ^ 63 - 1.
Definition INT_MIN : Z := - 2 ^ 31.
Definition INT_MAX : Z := 2 ^ 31 - 1.

Definition sizeof_double : Z := 8.

(** [a * b] on [size_t] (unsigned, 64 bits), after the usual conversion of a
    signed operand. *)
Definition mul_size_t (a b : Z) : Z := (a * b) mod 2 ^ 64.

(** [memcpy(dst, src, bytes)] between two arrays of doubles.  Reading past
    the end of [src] or writing past the end of [dst] is undefined: [None]. *)
Definition memcpy (dst src : list double) (bytes : Z) : option (list double) :=
  let k := Z.to_nat (bytes / sizeof_double) in
  if (k <=? List.length src)%nat && (k <=? List.length dst)%nat
  then Some (firstn k src ++ skipn k dst)
  else None.

(** ** Linear algebra objects (hiopVector.hpp, hiopMatrix.hpp,
       hiopMatrixMDS.hpp: only what the header reads from them) *)

Record hiopVectorPar : Type := mkVectorPar {
  vec_get_size : Z;                 (* get_size(): the global length *)
  local_data : list double          (* local_data(), local_data_const() *)
}.

Definition get_local_size (v : hiopVectorPar) : Z := Z.of_nat (List.length (local_data v)).

(** An abstract [hiopVector] handle: the parallel vector the header casts
    to, or an object of some other subclass, of which only [get_size] is
    known. *)
Inductive hiopVector : Type :=
| VectorPar (v : hiopVectorPar)
| VectorOther (size : Z).

Definition get_size (v : hiopVector) : Z :=
  match v with
  | VectorPar p => vec_get_size p
  | VectorOther n => n
  end.

Record hiopMatrixDense : Type := mkMatrixDense {
  dense_local_data : list (list double)    (* local_data(): double** *)
}.

(** The accessors shared by [hiopMatrixMDS] and [hiopMatrixSymBlockDiagMDS]:
    a sparse block in coordinate format and a dense block. *)
Record MDSBlocks : Type := mkMDSBlocks {
  n_sp : Z;
  n_de : Z;
  sp_nnz : Z;
  sp_irow : list Z;
  sp_jcol : list Z;
  sp_M : list double;
  de_local_data : list (list double)
}.

Inductive hiopMatrix : Type :=
| MatrixDense (M : hiopMatrixDense)
| MatrixMDS (M : MDSBlocks)
| MatrixSymBlockDiagMDS (M : MDSBlocks).

(** [dynamic_cast<T*>(&M)]: [None] is the null pointer. *)
Definition dynamic_cast_hiopMatrixDense (M : hiopMatrix) : option hiopMatrixDense :=
  match M with MatrixDense D => Some D | _ => None end.

Definition dynamic_cast_hiopMatrixMDS (M : hiopMatrix) : option MDSBlocks :=
  match M with MatrixMDS B => Some B | _ => None end.

Definition dynamic_cast_hiopMatrixSymBlockDiagMDS (M : hiopMatrix) : option MDSBlocks :=
  match M with MatrixSymBlockDiagMDS B => Some B | _ => None end.

(** [dynamic_cast<const hiopVectorPar&>(v)]: a failed reference cast throws
    [std::bad_cast]. *)
Definition dynamic_cast_hiopVectorPar (v : hiopVector) : option hiopVectorPar :=
  match v with VectorPar p => Some p | VectorOther _ => None end.

(** ** The user's interface (hiopInterface.hpp): argument lists *)

(** Arguments of [hiopInterfaceMDS::eval_Jac_cons], in the order of the
    call. *)
Record Jac_cons_args : Type := mkJacArgs {
  jac_n : Z;
  jac_m : Z;
  jac_num_cons : Z;
  jac_idx_cons : list Z;
  jac_x : list double;
  jac_new_x : bool;
  jac_nsparse : Z;
  jac_ndense : Z;
  jac_nnzJacS : Z;
  jac_iJacS : list Z;
  jac_jJacS : list Z;
  jac_MJacS : list double;
  jac_JacD : list (list double)
}.

(** What the callback leaves behind: its return value and the four arrays
    it was given to fill. *)
Record Jac_cons_out : Type := mkJacOut {
  jac_ret : bool;
  jac_iJacS' : list Z;
  jac_jJacS' : list Z;
  jac_MJacS' : list double;
  jac_JacD' : list (list double)
}.

(** Arguments of [hiopInterfaceMDS::eval_Hess_Lagr]. *)
Record Hess_Lagr_args : Type := mkHessArgs {
  hess_n : Z;
  hess_m : Z;
  hess_x : list double;
  hess_new_x : bool;
  hess_obj_factor : double;
  hess_lambda : list double;
  hess_new_lambda : bool;
  hess_nsparse : Z;
  hess_ndense : Z;
  hess_nnzHSS : Z;
  hess_iHSS : list Z;
  hess_jHSS : list Z;
  hess_MHSS : list double;
  hess_HDD : list (list double);
  hess_nnzHSD : Z;
  hess_iHSD : option (list Z);
  hess_jHSD : option (list Z);
  hess_MHSD : option (list double)
}.

(** The two counts are locals of the caller that the callback receives by
    reference: they come back as the callback left them. *)
Record Hess_Lagr_out : Type := mkHessOut {
  hess_ret : bool;
  hess_nnzHSS' : Z;
  hess_nnzHSD' : Z;
  hess_iHSS' : list Z;
  hess_jHSS' : list Z;
  hess_MHSS' : list double;
  hess_HDD' : list (list double)
}.

(** [hiopSolveStatus] is an enumeration: its value. *)
Definition hiopSolveStatus := Z.

(** Arguments of [hiopInterfaceBase::solution_callback]. *)
Record solution_args : Type := mkSolArgs {
  sol_status : hiopSolveStatus;
  sol_n : Z;
  sol_x : list double;
  sol_z_L : list double;
  sol_z_U : list double;
  sol_m : Z;
  sol_g : option (list double);
  sol_lambda : option (list double);
  sol_obj_value : double
}.

(** Arguments of [hiopInterfaceBase::iterate_callback]. *)
Record iterate_args : Type := mkIterArgs {
  it_iter : Z;
  it_obj_value : double;
  it_n : Z;
  it_x : list double;
  it_z_L : list double;
  it_z_U : list double;
  it_m : Z;
  it_g : option (list double);
  it_lambda : option (list double);
  it_inf_pr : double;
  it_inf_du : double;
  it_mu : double;
  it_alpha_du : double;
  it_alpha_pr : double;
  it_ls_trials : Z
}.

(** The verbosity level the header logs at (hiopLogger.hpp). *)
Inductive hiopOutVerbosity : Type := hovError.

(** Calls that leave the class. *)
Inductive event : Type :=
| ev_eval_Jac_cons (a : Jac_cons_args)
| ev_eval_Hess_Lagr (a : Hess_Lagr_args)
| ev_solution_callback (a : solution_args)
| ev_iterate_callback (a : iterate_args)
| ev_log_printf (v : hiopOutVerbosity) (msg : string).

(** How a call ends. *)
Inductive exn : Type := bad_cast.

Inductive outcome (A : Type) : Type :=
| Returned (a : A)
| AssertionFailure (expr : string)
| Thrown (e : exn)
| Undefined.

Arguments Returned {A} a.
Arguments AssertionFailure {A} expr.
Arguments Thrown {A} e.
Arguments Undefined {A}.

(** ** The user's interface: callbacks

    [U] is whatever state the user's object keeps between calls.  A callback
    sees its arguments and that state, nothing of the formulation. *)
Record hiopInterfaceBase (U : Type) : Type := mkInterfaceBase {
  solution_callback : solution_args -> U -> U;
  iterate_callback : iterate_args -> U -> bool * U
}.

Record hiopInterfaceMDS (U : Type) : Type := mkInterfaceMDS {
  eval_Jac_cons : Jac_cons_args -> U -> Jac_cons_out * U;
  eval_Hess_Lagr_user : Hess_Lagr_args -> U -> Hess_Lagr_out * U
}.

Arguments solution_callback {U} _ _ _.
Arguments iterate_callback {U} _ _ _.
Arguments eval_Jac_cons {U} _ _ _.
Arguments eval_Hess_Lagr_user {U} _ _ _.

(** ** The transformation chain (hiopNlpTransforms.hpp)

    The class is used through three methods.  [applyTox] returns the user-side
    array (the argument itself or one of the chain's own buffers) and may
    update the chain. *)
Class NlpTransformations (T : Type) : Type := mkNlpTransformations {
  applyTox : T -> list double -> bool -> list double * T;
  applyToObj : T -> double -> double;
  n_post_local : T -> Z
}.

(** Modelled from the spec: the enumeration
    [hiopInterfaceBase::NonlinearityType] of hiopInterface.hpp, which the
    specification gives as linear, nonlinear or convex. *)
Inductive NonlinearityType : Type := hiopLinear | hiopNonlinear | hiopConvex.

(** ** The formulation object: the data members of [hiopNlpFormulation] *)
Record hiopNlpFormulation (T : Type) : Type := mkNlpFormulation {
  n_vars : Z;
  n_cons : Z;
  n_cons_eq : Z;
  n_cons_ineq : Z;
  n_bnds_low : Z;
  n_bnds_low_local : Z;
  n_bnds_upp : Z;
  n_bnds_upp_local : Z;
  n_ineq_low : Z;
  n_ineq_upp : Z;
  n_bnds_lu : Z;
  n_ineq_lu : Z;
  xl : hiopVectorPar;
  xu : hiopVectorPar;
  ixu : hiopVectorPar;
  ixl : hiopVectorPar;
  vars_type : list NonlinearityType;
  c_rhs : hiopVectorPar;
  cons_eq_type : list NonlinearityType;
  dl : hiopVectorPar;
  du : hiopVectorPar;
  idl : hiopVectorPar;
  idu : hiopVectorPar;
  cons_ineq_type : list NonlinearityType;
  cons_eq_mapping : list Z;
  cons_ineq_mapping : list Z;
  strFixedVars : string;
  dFixedVarsTol : double;
  nlp_transformations : T
}.

Arguments n_vars {T} _.
Arguments n_cons {T} _.
Arguments n_cons_eq {T} _.
Arguments n_cons_ineq {T} _.
Arguments n_bnds_low {T} _.
Arguments n_bnds_low_local {T} _.
Arguments n_bnds_upp {T} _.
Arguments n_bnds_upp_local {T} _.
Arguments n_ineq_low {T} _.
Arguments n_ineq_upp {T} _.
Arguments xl {T} _.
Arguments cons_eq_mapping {T} _.
Arguments cons_ineq_mapping {T} _.
Arguments nlp_transformations {T} _.

(** The transformation chain is the one member the inline methods write. *)
Definition set_nlp_transformations {T} (f : hiopNlpFormulation T) (t : T)
  : hiopNlpFormulation T :=
  mkNlpFormulation T
    (n_vars f) (n_cons f) (n_cons_eq f) (n_cons_ineq f)
    (n_bnds_low f) (n_bnds_low_local f) (n_bnds_upp f) (n_bnds_upp_local f)
    (n_ineq_low f) (n_ineq_upp f) (n_bnds_lu T f) (n_ineq_lu T f)
    (xl f) (xu T f) (ixu T f) (ixl T f) (vars_type T f)
    (c_rhs T f) (cons_eq_type T f)
    (dl T f) (du T f) (idl T f) (idu T f) (cons_ineq_type T f)
    (cons_eq_mapping f) (cons_ineq_mapping f)
    (strFixedVars T f) (dFixedVarsTol T f) t.

(** ** Const accessors *)
Section Accessors.
Context {T : Type}.
Variable nlp : hiopNlpFormulation T.

Definition n : Z := n_vars nlp.
Definition m : Z := n_cons nlp.
Definition m_eq : Z := n_cons_eq nlp.
Definition m_ineq : Z := n_cons_ineq nlp.
Definition n_low : Z := n_bnds_low nlp.
Definition n_upp : Z := n_bnds_upp nlp.
Definition m_ineq_low : Z := n_ineq_low nlp.
Definition m_ineq_upp : Z := n_ineq_upp nlp.
Definition n_complem : Z :=
  add_ll (add_ll (add_ll m_ineq_low m_ineq_upp) n_low) n_upp.

Definition n_local : Z := get_local_size (xl nlp).
Definition n_low_local : Z := n_bnds_low_local nlp.
Definition n_upp_local : Z := n_bnds_upp_local nlp.
End Accessors.

(** ** The method monad *)

Record state (T U : Type) : Type := mkState {
  this : hiopNlpFormulation T;      (* the object the method is called on *)
  user : U;                         (* the state behind the user's interface *)
  trace : list event                (* calls made so far, oldest first *)
}.

Arguments mkState {T U} _ _ _.
Arguments this {T U} _.
Arguments user {T U} _.
Arguments trace {T U} _.

Definition M (T U A : Type) : Type := state T U -> outcome A * state T U.

Section Monad.
Context {T U : Type}.

Definition ret {A} (a : A) : M T U A := fun s => (Returned a, s).

Definition bind {A B} (c : M T U A) (k : A -> M T U B) : M T U B :=
  fun s =>
    match c s with
    | (Returned a, s') => k a s'
    | (AssertionFailure e, s') => (AssertionFailure e, s')
    | (Thrown e, s') => (Thrown e, s')
    | (Undefined, s') => (Undefined, s')
    end.

Definition get_this : M T U (hiopNlpFormulation T) := fun s => (Returned (this s), s).

Definition put_this (f : hiopNlpFormulation T) : M T U unit :=
  fun s => (Returned tt, mkState f (user s) (trace s)).

Definition throw {A} (e : exn) : M T U A := fun s => (Thrown e, s).

Definition undefined {A} : M T U A := fun s => (Undefined, s).

Definition emit (e : event) : M T U unit :=
  fun s => (Returned tt, mkState (this s) (user s) (trace s ++ [e])).

(** [assert(cond)], [expr] being the text of the condition. *)
Definition assert (NDEBUG : bool) (cond : bool) (expr : string) : M T U unit :=
  fun s =>
    if NDEBUG then (Returned tt, s)
    else if cond then (Returned tt, s)
    else (AssertionFailure expr, s).

(** A call of a user callback that returns: it is recorded, runs on the
    user's state and hands back what it returned.  A callback that leaves
    by a C++ exception is outside the model; the methods have no handler,
    and nothing below speaks of that case. *)
Definition call_user {Args Out} (ev : Args -> event)
           (callback : Args -> U -> Out * U) (a : Args) : M T U Out :=
  fun s =>
    let (out, u') := callback a (user s) in
    (Returned out, mkState (this s) u' (trace s ++ [ev a])).

(** [log->printf(v, msg)] *)
Definition log_printf (v : hiopOutVerbosity) (msg : string) : M T U unit :=
  emit (ev_log_printf v msg).
End Monad.

Declare Scope method_scope.
Delimit Scope method_scope with method.
Notation "x <- c ;; k" := (bind c (fun x => k))
  (at level 61, c at next level, right associativity) : method_scope.
Notation "c ;; k" := (bind c (fun _ => k))
  (at level 61, right associativity) : method_scope.
Local Open Scope method_scope.

Definition is_some {A} (o : option A) : bool :=
  match o with Some _ => true | None => false end.

Definition newline : string := String (ascii_of_nat 10) EmptyString.
Definition dquote : string := String (ascii_of_nat 34) EmptyString.

(** ** hiopNlpFormulation: the inline methods of the base class *)
Section hiopNlpFormulation_methods.
Context {T U : Type} `{NlpTransformations T}.
Variable NDEBUG : bool.
Variable interface_base : hiopInterfaceBase U.

(** [dynamic_cast<const hiopVectorPar&>] *)
Definition cast_ref (v : hiopVector) : M T U hiopVectorPar :=
  match dynamic_cast_hiopVectorPar v with
  | Some p => ret p
  | None => throw bad_cast
  end.

Definition user_callback_solution (status : hiopSolveStatus)
           (x z_L z_U c d yc yd : hiopVector) (obj_value : double) : M T U unit :=
  xp <- cast_ref x ;;
  zl <- cast_ref z_L ;;
  zu <- cast_ref z_U ;;
  nlp <- get_this ;;
  assert NDEBUG (vec_get_size xp =? n_vars nlp) "xp.get_size()==n_vars" ;;
  assert NDEBUG (add_ll (get_size c) (get_size d) =? n_cons nlp)
         "c.get_size()+d.get_size()==n_cons" ;;
  call_user ev_solution_callback
            (fun a u => (tt, solution_callback interface_base a u))
            (mkSolArgs status
                       (to_int (n_vars nlp)) (local_data xp) (local_data zl) (local_data zu)
                       (to_int (n_cons nlp)) None
                       None
                       obj_value).

Definition user_callback_iterate (iter : Z) (obj_value : double)
           (x z_L z_U c d yc yd : hiopVector)
           (inf_pr inf_du mu alpha_du alpha_pr : double) (ls_trials : Z) : M T U bool :=
  xp <- cast_ref x ;;
  zl <- cast_ref z_L ;;
  zu <- cast_ref z_U ;;
  nlp <- get_this ;;
  assert NDEBUG (vec_get_size xp =? n_vars nlp) "xp.get_size()==n_vars" ;;
  assert NDEBUG (add_ll (get_size c) (get_size d) =? n_cons nlp)
         "c.get_size()+d.get_size()==n_cons" ;;
  call_user ev_iterate_callback (iterate_callback interface_base)
            (mkIterArgs iter obj_value
                        (to_int (n_vars nlp)) (local_data xp) (local_data zl) (local_data zu)
                        (to_int (n_cons nlp)) None
                        None
                        inf_pr inf_du mu alpha_du alpha_pr ls_trials).

Definition user_obj (hiop_f : double) : M T U double :=
  nlp <- get_this ;;
  ret (applyToObj (nlp_transformations nlp) hiop_f).

(** [user_x(hiop_x, user_x)]: the result is the caller's array after the
    call.  The caller's array is taken to be disjoint from the chain's. *)
Definition user_x (hiop_x : hiopVectorPar) (user_x : list double) : M T U (list double) :=
  let hiop_xa := local_data hiop_x in
  nlp <- get_this ;;
  let (user_xa, t') := applyTox (nlp_transformations nlp) hiop_xa true in
  put_this (set_nlp_transformations nlp t') ;;
  nlp <- get_this ;;
  match memcpy user_x user_xa
               (mul_size_t (n_post_local (nlp_transformations nlp)) sizeof_double) with
  | Some filled => ret filled
  | None => undefined
  end.
End hiopNlpFormulation_methods.

(** ** hiopNlpDenseConstraints *)
Module hiopNlpDenseConstraints.
Section Methods.
Context {T U : Type}.
Variable NDEBUG : bool.

(** The overloads of [eval_Jac_c] and [eval_Jac_d] that take the rows of
    the matrix as a raw array are declared in the header and defined
    elsewhere: they are parameters here.  Each returns its result and the
    rows as it filled them. *)
Variable eval_Jac_c_raw : list double -> bool -> list (list double) ->
                          M T U (bool * list (list double)).
Variable eval_Jac_d_raw : list double -> bool -> list (list double) ->
                          M T U (bool * list (list double)).

Definition internal_error_msg : string :=
  ("[internal error] hiopNlpDenseConstraints NLP works only with dense matrices"
     ++ newline)%string.

Definition eval_Jac_c (x : list double) (new_x : bool) (Jac_c : hiopMatrix)
  : M T U (bool * hiopMatrix) :=
  let Jac_cde := dynamic_cast_hiopMatrixDense Jac_c in
  match Jac_cde with
  | None =>
      log_printf hovError internal_error_msg ;;
      ret (false, Jac_c)
  | Some D =>
      r <- eval_Jac_c_raw x new_x (dense_local_data D) ;;
      ret (fst r, MatrixDense (mkMatrixDense (snd r)))
  end.

Definition eval_Jac_d (x : list double) (new_x : bool) (Jac_d : hiopMatrix)
  : M T U (bool * hiopMatrix) :=
  let Jac_dde := dynamic_cast_hiopMatrixDense Jac_d in
  match Jac_dde with
  | None =>
      log_printf hovError internal_error_msg ;;
      ret (false, Jac_d)
  | Some D =>
      r <- eval_Jac_d_raw x new_x (dense_local_data D) ;;
      ret (fst r, MatrixDense (mkMatrixDense (snd r)))
  end.

(** The text of the condition [false && <message>]; a string literal
    converts to [true]. *)
Definition quasi_newton_only : string :=
  ("false && " ++ dquote ++ "this NLP formulation is only for Quasi-Newton" ++ dquote)%string.

Definition eval_Hess_Lagr (x : list double) (new_x : bool) (obj_factor : double)
           (lambda : list double) (new_lambda : bool) (Hess_L : hiopMatrix)
  : M T U (bool * hiopMatrix) :=
  assert NDEBUG (false && true) quasi_newton_only ;;
  ret (true, Hess_L).
End Methods.
End hiopNlpDenseConstraints.

(** ** hiopNlpMDS *)
Module hiopNlpMDS.
Section Methods.
Context {T U : Type}.
Variable NDEBUG : bool.
Variable interface : hiopInterfaceMDS U.

(** The blocks of a matrix after a callback wrote its arrays. *)
Definition written (p : MDSBlocks) (irow jcol : list Z) (vals : list double)
           (dense : list (list double)) : MDSBlocks :=
  mkMDSBlocks (n_sp p) (n_de p) (sp_nnz p) irow jcol vals dense.

Definition eval_Jac_c (x : list double) (new_x : bool) (Jac_c : hiopMatrix)
  : M T U (bool * hiopMatrix) :=
  let pJac_c := dynamic_cast_hiopMatrixMDS Jac_c in
  assert NDEBUG (is_some pJac_c) "pJac_c" ;;
  match pJac_c with
  | Some p =>
      let nnz := sp_nnz p in
      nlp <- get_this ;;
      out <- call_user ev_eval_Jac_cons (eval_Jac_cons interface)
               (mkJacArgs (n_vars nlp) (n_cons nlp)
                          (n_cons_eq nlp) (cons_eq_mapping nlp)
                          x new_x (n_sp p) (n_de p)
                          nnz (sp_irow p) (sp_jcol p) (sp_M p)
                          (de_local_data p)) ;;
      ret (jac_ret out,
           MatrixMDS (written p (jac_iJacS' out) (jac_jJacS' out) (jac_MJacS' out)
                              (jac_JacD' out)))
  | None => ret (false, Jac_c)
  end.

Definition eval_Jac_d (x : list double) (new_x : bool) (Jac_d : hiopMatrix)
  : M T U (bool * hiopMatrix) :=
  let pJac_d := dynamic_cast_hiopMatrixMDS Jac_d in
  assert NDEBUG (is_some pJac_d) "pJac_d" ;;
  match pJac_d with
  | Some p =>
      let nnz := sp_nnz p in
      nlp <- get_this ;;
      out <- call_user ev_eval_Jac_cons (eval_Jac_cons interface)
               (mkJacArgs (n_vars nlp) (n_cons nlp)
                          (n_cons_ineq nlp) (cons_ineq_mapping nlp)
                          x new_x (n_sp p) (n_de p)
                          nnz (sp_irow p) (sp_jcol p) (sp_M p)
                          (de_local_data p)) ;;
      ret (jac_ret out,
           MatrixMDS (written p (jac_iJacS' out) (jac_jJacS' out) (jac_MJacS' out)
                              (jac_JacD' out)))
  | None => ret (false, Jac_d)
  end.

Definition eval_Hess_Lagr (x : list double) (new_x : bool) (obj_factor : double)
           (lambda : list double) (new_lambda : bool) (Hess_L : hiopMatrix)
  : M T U (bool * hiopMatrix) :=
  let pHessL := dynamic_cast_hiopMatrixSymBlockDiagMDS Hess_L in
  assert NDEBUG (is_some pHessL) "pHessL" ;;
  match pHessL with
  | Some p =>
      let nnzHSS := sp_nnz p in
      let nnzHSD := 0 in
      nlp <- get_this ;;
      out <- call_user ev_eval_Hess_Lagr (eval_Hess_Lagr_user interface)
               (mkHessArgs (n_vars nlp) (n_cons nlp) x new_x obj_factor lambda new_lambda
                           (n_sp p) (n_de p)
                           nnzHSS (sp_irow p) (sp_jcol p) (sp_M p)
                           (de_local_data p)
                           nnzHSD None None None) ;;
      let bret := hess_ret out in
      let nnzHSS := hess_nnzHSS' out in
      let nnzHSD := hess_nnzHSD' out in
      let p' := written p (hess_iHSS' out) (hess_jHSS' out) (hess_MHSS' out)
                        (hess_HDD' out) in
      assert NDEBUG (nnzHSD =? 0) "nnzHSD==0" ;;
      assert NDEBUG (nnzHSS =? sp_nnz p') "nnzHSS==pHessL->sp_nnz()" ;;
      ret (bret, MatrixSymBlockDiagMDS p')
  | None => ret (false, Hess_L)
  end.
End Methods.
End hiopNlpMDS.

(** ** Finalization: the split of the constraints *)

(** What the user's interface reports when it is queried: the two
    dimensions and, for each index, the entry the user writes into the bound
    and type arrays of that length. *)
Record problem_data : Type := mkProblemData {
  prob_n : Z;
  prob_m : Z;
  vars_lower : nat -> double;
  vars_upper : nat -> double;
  cons_lower : nat -> double;
  cons_upper : nat -> double;
  cons_type : nat -> NonlinearityType
}.

Definition indices (k : Z) : list nat := seq 0 (Z.to_nat k).

Definition array_of {A} (k : list nat) (entry : nat -> A) : list A := map entry k.

(** A bound array is inconsistent when some lower bound exceeds its upper
    bound. *)
Definition bounds_consistent (lower upper : nat -> double) (k : Z) : bool :=
  forallb (fun i => negb (PrimFloat.ltb (upper i) (lower i))) (indices k).

Section Finalization.
Context {T U : Type}.

(** The comparison of a constraint's two bounds that tags it as an
    equality. *)
Variable is_equality : double -> double -> bool.

Definition tagged_equality (prob : problem_data) (i : nat) : bool :=
  is_equality (cons_lower prob i) (cons_upper prob i).

Definition with_constraints (f : hiopNlpFormulation T) (prob : problem_data)
           (eqs ineqs : list nat) : hiopNlpFormulation T :=
  mkNlpFormulation T
    (prob_n prob) (prob_m prob) (Z.of_nat (List.length eqs)) (Z.of_nat (List.length ineqs))
    (n_bnds_low f) (n_bnds_low_local f) (n_bnds_upp f) (n_bnds_upp_local f)
    (n_ineq_low f) (n_ineq_upp f) (n_bnds_lu T f) (n_ineq_lu T f)
    (xl f) (xu T f) (ixu T f) (ixl T f) (vars_type T f)
    (mkVectorPar (Z.of_nat (List.length eqs)) (array_of eqs (cons_lower prob)))
    (array_of eqs (cons_type prob))
    (mkVectorPar (Z.of_nat (List.length ineqs)) (array_of ineqs (cons_lower prob)))
    (mkVectorPar (Z.of_nat (List.length ineqs)) (array_of ineqs (cons_upper prob)))
    (idl T f) (idu T f)
    (array_of ineqs (cons_type prob))
    (map Z.of_nat eqs) (map Z.of_nat ineqs)
    (strFixedVars T f) (dFixedVarsTol T f) (nlp_transformations f).

(** Modelled from the spec: [hiopNlpFormulation::finalizeInitialization],
    which the header declares and does not define.  This is the part of it
    the specification describes for the constraints: it fails when a
    reported dimension is negative or a bound array is inconsistent;
    otherwise each of the [n_cons] constraints, in the user's order, is
    tagged equality or inequality by comparing its two bounds, and
    [cons_eq_mapping] and [cons_ineq_mapping] record the original index of
    each position of the equality and of the inequality block, with the
    right-hand side, bounds and types of each block beside them.  The
    members on the side of the variables (bounds, indicators, counts,
    layout, transformation chain) are outside this model and keep their
    values. *)
Definition finalizeInitialization (prob : problem_data) : M T U bool :=
  if (prob_n prob <? 0) || (prob_m prob <? 0) then ret false
  else if negb (bounds_consistent (vars_lower prob) (vars_upper prob) (prob_n prob))
  then ret false
  else if negb (bounds_consistent (cons_lower prob) (cons_upper prob) (prob_m prob))
  then ret false
  else
    let eqs := filter (tagged_equality prob) (indices (prob_m prob)) in
    let ineqs := filter (fun i => negb (tagged_equality prob i)) (indices (prob_m prob)) in
    nlp <- get_this ;;
    put_this (with_constraints nlp prob eqs ineqs) ;;
    ret true.
End Finalization.

(** Modelled from the spec: the assembly of the two blocks into one array in
    the user's order, which the header leaves to be done: entry
    [mapping[i]] of the result is entry [i] of the block. *)
Fixpoint scatter (mapping : list Z) (block : list double) (into : list double)
  : list double :=
  match mapping, block with
  | i :: mapping', v :: block' =>
      scatter mapping' block'
              (firstn (Z.to_nat i) into ++ v :: skipn (S (Z.to_nat i)) into)
  | _, _ => into
  end.

Definition assemble {T} (nlp : hiopNlpFormulation T) (c d : list double) : list double :=
  scatter (cons_ineq_mapping nlp) d
          (scatter (cons_eq_mapping nlp) c
                   (repeat 0%float (Z.to_nat (n_cons nlp)))).

(** ** Concrete problems *)
Module Scenario.

(** Modelled from the spec: a transformation chain that removes fixed
    variables (hiopNlpTransforms.hpp is not part of the header).  The chain
    is the user-side layout: [Some v] for a variable fixed at [v], [None]
    for a variable the algorithm keeps.  The inverse map puts the fixed
    values back between the internal entries. *)
Definition fixed_vars_chain : Type := list (option double).

Fixpoint reinsert (layout : fixed_vars_chain) (x : list double) : list double :=
  match layout with
  | [] => []
  | Some v :: layout' => v :: reinsert layout' x
  | None :: layout' =>
      match x with
      | a :: x' => a :: reinsert layout' x'
      | [] => 0%float :: reinsert layout' []
      end
  end.

#[global] Instance fixed_vars_transformations : NlpTransformations fixed_vars_chain :=
  mkNlpTransformations fixed_vars_chain
    (fun t x _ => (reinsert t x, t))
    (fun _ f => f)
    (fun t => Z.of_nat (List.length t)).

(** Scenario A: bounds [0,1], (-inf,5], [2,2]; the third variable is
    removed. *)
Definition chain_A : fixed_vars_chain := [None; None; Some 2%float].

Definition vec (l : list double) : hiopVectorPar := mkVectorPar (Z.of_nat (List.length l)) l.

Definition minus_infinity : double := (-1e20)%float.
Definition plus_infinity : double := 1e20%float.

(** Scenario B: four constraints with bounds (-inf,5], [3,3], [0,10],
    [1,1]. *)
Definition problem_B : problem_data :=
  mkProblemData 2 4
    (fun i => nth i [0%float; minus_infinity] 0%float)
    (fun i => nth i [1%float; 5%float] 0%float)
    (fun i => nth i [minus_infinity; 3%float; 0%float; 1%float] 0%float)
    (fun i => nth i [5%float; 3%float; 10%float; 1%float] 0%float)
    (fun _ => hiopNonlinear).

(** A formulation as the constructor leaves it, before finalization. *)
Definition constructed : hiopNlpFormulation fixed_vars_chain :=
  mkNlpFormulation fixed_vars_chain
    0 0 0 0 0 0 0 0 0 0 0 0
    (vec []) (vec []) (vec []) (vec []) []
    (vec []) []
    (vec []) (vec []) (vec []) (vec []) []
    [] []
    "none" 0%float chain_A.

(** The internal problem of scenarios A and B together: two variables
    after the removal, two equalities (original rows 1 and 3) and two
    inequalities (rows 0 and 2). *)
Definition finalized : hiopNlpFormulation fixed_vars_chain :=
  mkNlpFormulation fixed_vars_chain
    2 4 2 2 1 1 2 2 1 2 1 1
    (vec [0%float; minus_infinity]) (vec [1%float; 5%float])
    (vec [1%float; 1%float]) (vec [1%float; 0%float])
    [hiopNonlinear; hiopNonlinear]
    (vec [3%float; 1%float]) [hiopNonlinear; hiopNonlinear]
    (vec [minus_infinity; 0%float]) (vec [5%float; 10%float])
    (vec [0%float; 1%float]) (vec [1%float; 1%float])
    [hiopNonlinear; hiopNonlinear]
    [1; 3] [0; 2]
    "fixed" 0%float chain_A.

(** The user's object counts the calls it receives. *)
Definition calls : Type := nat.

Definition start : state fixed_vars_chain calls := mkState finalized 0%nat [].

Definition reporting : hiopInterfaceBase calls :=
  mkInterfaceBase calls
    (fun _ u => S u)
    (fun _ u => (true, S u)).

(** A user whose Hessian has no coupling block and who fills the arrays
    with what they held. *)
Definition block_diagonal : hiopInterfaceMDS calls :=
  mkInterfaceMDS calls
    (fun a u => (mkJacOut true (jac_iJacS a) (jac_jJacS a) (jac_MJacS a) (jac_JacD a), S u))
    (fun a u => (mkHessOut true (hess_nnzHSS a) (hess_nnzHSD a)
                           (hess_iHSS a) (hess_jHSS a) (hess_MHSS a) (hess_HDD a), S u)).

(** Scenario C: a user whose Hessian callback reports one nonzero in the
    sparse-dense coupling block.  It returns [ret]. *)
Definition coupled (ret : bool) : hiopInterfaceMDS calls :=
  mkInterfaceMDS calls
    (fun a u => (mkJacOut true (jac_iJacS a) (jac_jJacS a) (jac_MJacS a) (jac_JacD a), S u))
    (fun a u => (mkHessOut ret (hess_nnzHSS a) 1
                           (hess_iHSS a) (hess_jHSS a) (hess_MHSS a) (hess_HDD a), S u)).

Definition blocks : MDSBlocks :=
  mkMDSBlocks 1 1 1 [0] [0] [1%float] [[2%float]].

Definition x0 : list double := [0.5%float; 4%float].
Definition lambda0 : list double := [1%float; 1%float; 1%float; 1%float].

(** A raw dense Jacobian evaluation that succeeds and leaves the rows. *)
Definition raw_ok (x : list double) (new_x : bool) (rows : list (list double))
  : M fixed_vars_chain calls (bool * list (list double)) :=
  ret (true, rows).
(** The vectors of a report: the internal point and its bound multipliers,
    the two blocks of constraint values and of multipliers. *)
Definition x_vec : hiopVector := VectorPar (vec x0).
Definition zl_vec : hiopVector := VectorPar (vec [0.25%float; 0%float]).
Definition zu_vec : hiopVector := VectorPar (vec [0%float; 0.75%float]).
Definition c_block : list double := [3%float; 1%float].
Definition d_block : list double := [4%float; 5%float].
Definition yc_block : list double := [7%float; 8%float].
Definition yd_block : list double := [9%float; 6%float].

Definition solution_run : outcome unit * state fixed_vars_chain calls :=
  user_callback_solution false reporting 0 x_vec zl_vec zu_vec
                         (VectorPar (vec c_block)) (VectorPar (vec d_block))
                         (VectorPar (vec yc_block)) (VectorPar (vec yd_block))
                         12%float start.

Definition iterate_run : outcome bool * state fixed_vars_chain calls :=
  user_callback_iterate false reporting 3 12%float x_vec zl_vec zu_vec
                        (VectorPar (vec c_block)) (VectorPar (vec d_block))
                        (VectorPar (vec yc_block)) (VectorPar (vec yd_block))
                        0%float 0%float 0.125%float 1%float 1%float 0 start.
End Scenario.

(** ** Further concrete inputs *)
Module Edge.

(** A user whose Hessian callback leaves the coupling count at zero and
    reports one more sparse nonzero than the matrix holds. *)
Definition recounting : hiopInterfaceMDS Scenario.calls :=
  mkInterfaceMDS Scenario.calls
    (fun a u => (mkJacOut true (jac_iJacS a) (jac_jJacS a) (jac_MJacS a) (jac_JacD a), S u))
    (fun a u => (mkHessOut true (hess_nnzHSS a + 1) 0
                           (hess_iHSS a) (hess_jHSS a) (hess_MHSS a) (hess_HDD a), S u)).

(** A vector of a class other than [hiopVectorPar], of global size 2. *)
Definition foreign_vec : hiopVector := VectorOther 2.

(** A vector of the right class and of global size 3. *)
Definition long_vec : hiopVector :=
  VectorPar (mkVectorPar 3 [0.5%float; 4%float; 2%float]).

(** A distributed problem with 2^31 variables, of which this rank holds
    two, and 2^32 + 4 constraints. *)
Definition large : hiopNlpFormulation Scenario.fixed_vars_chain :=
  mkNlpFormulation Scenario.fixed_vars_chain
    (2 ^ 31) (2 ^ 32 + 4) 2 (2 ^ 32 + 2) 0 0 0 0 0 0 0 0
    (Scenario.vec []) (Scenario.vec []) (Scenario.vec []) (Scenario.vec []) []
    (Scenario.vec []) []
    (Scenario.vec []) (Scenario.vec []) (Scenario.vec []) (Scenario.vec []) []
    [] []
    "none" 0%float [None; None].

Definition large_start : state Scenario.fixed_vars_chain Scenario.calls :=
  mkState large 0%nat [].

Definition large_x : hiopVectorPar := mkVectorPar (2 ^ 31) Scenario.x0.

(** A raw dense Jacobian evaluation that fails and leaves the rows. *)
Definition raw_fails (x : list double) (new_x : bool) (rows : list (list double))
  : M Scenario.fixed_vars_chain Scenario.calls (bool * list (list double)) :=
  ret (false, rows).
End Edge.

(** ** The argument lists the MDS methods build *)

Definition Jac_c_request {T} (nlp : hiopNlpFormulation T) (x : list double) (new_x : bool)
           (p : MDSBlocks) : Jac_cons_args :=
  mkJacArgs (n_vars nlp) (n_cons nlp) (n_cons_eq nlp) (cons_eq_mapping nlp)
            x new_x (n_sp p) (n_de p) (sp_nnz p) (sp_irow p) (sp_jcol p) (sp_M p)
            (de_local_data p).

Definition Jac_d_request {T} (nlp : hiopNlpFormulation T) (x : list double) (new_x : bool)
           (p : MDSBlocks) : Jac_cons_args :=
  mkJacArgs (n_vars nlp) (n_cons nlp) (n_cons_ineq nlp) (cons_ineq_mapping nlp)
            x new_x (n_sp p) (n_de p) (sp_nnz p) (sp_irow p) (sp_jcol p) (sp_M p)
            (de_local_data p).

Definition Hess_Lagr_request {T} (nlp : hiopNlpFormulation T) (x : list double) (new_x : bool)
           (obj_factor : double) (lambda : list double) (new_lambda : bool)
           (p : MDSBlocks) : Hess_Lagr_args :=
  mkHessArgs (n_vars nlp) (n_cons nlp) x new_x obj_factor lambda new_lambda
             (n_sp p) (n_de p) (sp_nnz p) (sp_irow p) (sp_jcol p) (sp_M p)
             (de_local_data p) 0 None None None.

(** The reading of "the hook receives the assembled constraint values and
    multipliers": both arrays are present and hold the two blocks put back
    in the user's order. *)
Definition receives_assembled {T} (nlp : hiopNlpFormulation T)
           (c d yc yd : list double) (g lambda : option (list double)) : Prop :=
  g = Some (assemble nlp c d) /\ lambda = Some (assemble nlp yc yd).

(** A computation that leaves the formulation object as it found it,
    however it ends. *)
Definition preserves_this {T U A} (c : M T U A) : Prop :=
  forall s, this (snd (c s)) = this s.

(** The result of a call, carried over a function of the returned value. *)
Definition map_outcome {A B} (f : A -> B) (o : outcome A) : outcome B :=
  match o with
  | Returned a => Returned (f a)
  | AssertionFailure e => AssertionFailure e
  | Thrown e => Thrown e
  | Undefined => Undefined
  end.

(** * Properties *)

(** ** Integer arithmetic *)

Lemma wrap_in_range (w z : Z) :
  0 < w -> - 2 ^ (w - 1) <= z < 2 ^ (w - 1) -> wrap w z = z.
Proof.
  intros Hw Hz. unfold wrap.
  assert (E : 2 ^ w = 2 * 2 ^ (w - 1)).
  { replace w with (Z.succ (w - 1)) at 1 by lia. apply Z.pow_succ_r. lia. }
  rewrite Z.mod_small; lia.
Qed.

Lemma wrap_add_idem (w a b : Z) : 0 < w -> wrap w (wrap w a + b) = wrap w (a + b).
Proof.
  intros Hw. unfold wrap.
  assert (P : 0 < 2 ^ w) by (apply Z.pow_pos_nonneg; lia).
  f_equal.
  replace ((a + 2 ^ (w - 1)) mod 2 ^ w - 2 ^ (w - 1) + b + 2 ^ (w - 1))
    with ((a + 2 ^ (w - 1)) mod 2 ^ w + b) by lia.
  rewrite Zplus_mod_idemp_l. f_equal. lia.
Qed.

Lemma to_int_in_range (z : Z) : INT_MIN <= z <= INT_MAX -> to_int z = z.
Proof.
  unfold INT_MIN, INT_MAX, to_int. intros Hz.
  apply wrap_in_range; simpl in *; lia.
Qed.

Lemma add_ll_in_range (a b : Z) : LLONG_MIN <= a + b <= LLONG_MAX -> add_ll a b = a + b.
Proof.
  unfold LLONG_MIN, LLONG_MAX, add_ll. intros Hz.
  apply wrap_in_range; simpl in *; lia.
Qed.

(** The accessor computes the sum of the four counts modulo 2^64, whatever
    the counts are. *)
Lemma n_complem_wrap {T} (nlp : hiopNlpFormulation T) :
  n_complem nlp = wrap 64 (n_ineq_low nlp + n_ineq_upp nlp + n_bnds_low nlp + n_bnds_upp nlp).
Proof.
  unfold n_complem, add_ll, m_ineq_low, m_ineq_upp, n_low, n_upp.
  rewrite wrap_add_idem by lia.
  rewrite <- Z.add_assoc, wrap_add_idem by lia.
  f_equal. lia.
Qed.

(** C9. [n_complem()] returns the sum
    [m_ineq_low() + m_ineq_upp() + n_low() + n_upp()] of the four
    bound/complementarity counts, for every formulation object whose sum
    is a [long long] value. *)
Theorem n_complem_sum {T} (nlp : hiopNlpFormulation T) :
  LLONG_MIN <= m_ineq_low nlp + m_ineq_upp nlp + n_low nlp + n_upp nlp <= LLONG_MAX ->
  n_complem nlp = m_ineq_low nlp + m_ineq_upp nlp + n_low nlp + n_upp nlp.
Proof.
  intros Hsum. rewrite n_complem_wrap.
  unfold m_ineq_low, m_ineq_upp, n_low, n_upp, LLONG_MIN, LLONG_MAX in *.
  apply wrap_in_range; simpl in *; lia.
Qed.

Lemma n_complem_sum_witness :
  n_complem Scenario.finalized = 6 /\
  n_complem Scenario.finalized
  = m_ineq_low Scenario.finalized + m_ineq_upp Scenario.finalized
    + n_low Scenario.finalized + n_upp Scenario.finalized.
Proof.
  split; [reflexivity |].
  apply (n_complem_sum Scenario.finalized).
  vm_compute. split; discriminate.
Defined.

(** ** The MDS specialization *)

(** A call of a user callback returns what the callback returned, leaves
    the object alone and adds one entry to the trace. *)
Lemma call_user_run {T U Args Out} (ev : Args -> event)
      (callback : Args -> U -> Out * U) (a : Args) (s : state T U) :
  call_user ev callback a s
  = (Returned (fst (callback a (user s))),
     mkState (this s) (snd (callback a (user s))) (trace s ++ [ev a])).
Proof.
  unfold call_user. destruct (callback a (user s)); reflexivity.
Qed.

Lemma MDS_eval_Jac_c_run {T U} NDEBUG (interface : hiopInterfaceMDS U)
      x new_x p (s : state T U) :
  hiopNlpMDS.eval_Jac_c NDEBUG interface x new_x (MatrixMDS p) s
  = let r := eval_Jac_cons interface (Jac_c_request (this s) x new_x p) (user s) in
    (Returned (jac_ret (fst r),
               MatrixMDS (hiopNlpMDS.written p (jac_iJacS' (fst r)) (jac_jJacS' (fst r))
                                             (jac_MJacS' (fst r)) (jac_JacD' (fst r)))),
     mkState (this s) (snd r)
             (trace s ++ [ev_eval_Jac_cons (Jac_c_request (this s) x new_x p)])).
Proof.
  unfold hiopNlpMDS.eval_Jac_c, bind, assert, get_this; simpl.
  destruct NDEBUG; rewrite call_user_run; reflexivity.
Qed.

Lemma MDS_eval_Jac_d_run {T U} NDEBUG (interface : hiopInterfaceMDS U)
      x new_x p (s : state T U) :
  hiopNlpMDS.eval_Jac_d NDEBUG interface x new_x (MatrixMDS p) s
  = let r := eval_Jac_cons interface (Jac_d_request (this s) x new_x p) (user s) in
    (Returned (jac_ret (fst r),
               MatrixMDS (hiopNlpMDS.written p (jac_iJacS' (fst r)) (jac_jJacS' (fst r))
                                             (jac_MJacS' (fst r)) (jac_JacD' (fst r)))),
     mkState (this s) (snd r)
             (trace s ++ [ev_eval_Jac_cons (Jac_d_request (this s) x new_x p)])).
Proof.
  unfold hiopNlpMDS.eval_Jac_d, bind, assert, get_this; simpl.
  destruct NDEBUG; rewrite call_user_run; reflexivity.
Qed.

Lemma cast_MDS_inv (J : hiopMatrix) (p : MDSBlocks) :
  dynamic_cast_hiopMatrixMDS J = Some p -> J = MatrixMDS p.
Proof. destruct J; simpl; congruence. Qed.

Lemma cast_SymBlockDiagMDS_inv (H : hiopMatrix) (p : MDSBlocks) :
  dynamic_cast_hiopMatrixSymBlockDiagMDS H = Some p -> H = MatrixSymBlockDiagMDS p.
Proof. destruct H; simpl; congruence. Qed.

(** C1. When the handle downcasts to the mixed sparse-dense type,
    [eval_Jac_c] (resp. [eval_Jac_d]) invokes the user's combined Jacobian
    callback exactly once: the trace grows by that one call, the user's
    state is the one the callback leaves, and the call carries [n_cons_eq]
    with [cons_eq_mapping] (resp. [n_cons_ineq] with [cons_ineq_mapping]),
    the sparse and dense dimension counts, the current sparse nonzero count,
    the coordinate index and value arrays and the dense block's array. *)
Theorem MDS_eval_Jac_forwards_once {T U} NDEBUG (interface : hiopInterfaceMDS U)
        x new_x (Jac : hiopMatrix) (p : MDSBlocks) (s : state T U) :
  dynamic_cast_hiopMatrixMDS Jac = Some p ->
  (let s' := snd (hiopNlpMDS.eval_Jac_c NDEBUG interface x new_x Jac s) in
   let call :=
     mkJacArgs (n_vars (this s)) (n_cons (this s))
               (n_cons_eq (this s)) (cons_eq_mapping (this s))
               x new_x (n_sp p) (n_de p)
               (sp_nnz p) (sp_irow p) (sp_jcol p) (sp_M p) (de_local_data p) in
   trace s' = trace s ++ [ev_eval_Jac_cons call] /\
   user s' = snd (eval_Jac_cons interface call (user s)))
  /\
  (let s' := snd (hiopNlpMDS.eval_Jac_d NDEBUG interface x new_x Jac s) in
   let call :=
     mkJacArgs (n_vars (this s)) (n_cons (this s))
               (n_cons_ineq (this s)) (cons_ineq_mapping (this s))
               x new_x (n_sp p) (n_de p)
               (sp_nnz p) (sp_irow p) (sp_jcol p) (sp_M p) (de_local_data p) in
   trace s' = trace s ++ [ev_eval_Jac_cons call] /\
   user s' = snd (eval_Jac_cons interface call (user s))).
Proof.
  intros Hcast. apply cast_MDS_inv in Hcast. subst Jac.
  rewrite MDS_eval_Jac_c_run, MDS_eval_Jac_d_run. simpl.
  repeat split.
Qed.

Lemma MDS_eval_Jac_forwards_once_witness :
  dynamic_cast_hiopMatrixMDS (MatrixMDS Scenario.blocks) = Some Scenario.blocks /\
  trace (snd (hiopNlpMDS.eval_Jac_c false Scenario.block_diagonal Scenario.x0 true
                                    (MatrixMDS Scenario.blocks) Scenario.start))
  = [ev_eval_Jac_cons
       (mkJacArgs 2 4 2 [1; 3] Scenario.x0 true 1 1 1 [0] [0] [1%float] [[2%float]])] /\
  trace (snd (hiopNlpMDS.eval_Jac_d false Scenario.block_diagonal Scenario.x0 true
                                    (MatrixMDS Scenario.blocks) Scenario.start))
  = [ev_eval_Jac_cons
       (mkJacArgs 2 4 2 [0; 2] Scenario.x0 true 1 1 1 [0] [0] [1%float] [[2%float]])].
Proof.
  pose proof (MDS_eval_Jac_forwards_once false Scenario.block_diagonal Scenario.x0 true
                (MatrixMDS Scenario.blocks) Scenario.blocks Scenario.start eq_refl)
    as [[Hc _] [Hd _]].
  split; [reflexivity |]. split; [exact Hc | exact Hd].
Defined.

Lemma MDS_eval_Hess_Lagr_run {T U} NDEBUG (interface : hiopInterfaceMDS U)
      x new_x obj_factor lambda new_lambda p (s : state T U) :
  hiopNlpMDS.eval_Hess_Lagr NDEBUG interface x new_x obj_factor lambda new_lambda
                            (MatrixSymBlockDiagMDS p) s
  = let call := Hess_Lagr_request (this s) x new_x obj_factor lambda new_lambda p in
    let r := eval_Hess_Lagr_user interface call (user s) in
    let s' := mkState (this s) (snd r) (trace s ++ [ev_eval_Hess_Lagr call]) in
    let done :=
      Returned (hess_ret (fst r),
                MatrixSymBlockDiagMDS
                  (hiopNlpMDS.written p (hess_iHSS' (fst r)) (hess_jHSS' (fst r))
                                      (hess_MHSS' (fst r)) (hess_HDD' (fst r)))) in
    if NDEBUG then (done, s')
    else if hess_nnzHSD' (fst r) =? 0 then
           if hess_nnzHSS' (fst r) =? sp_nnz p then (done, s')
           else (AssertionFailure "nnzHSS==pHessL->sp_nnz()", s')
         else (AssertionFailure "nnzHSD==0", s').
Proof.
  unfold hiopNlpMDS.eval_Hess_Lagr, bind, assert, get_this; simpl.
  destruct NDEBUG; rewrite call_user_run; simpl.
  - reflexivity.
  - fold (Hess_Lagr_request (this s) x new_x obj_factor lambda new_lambda p).
    destruct (hess_nnzHSD' _ =? 0); [| reflexivity].
    destruct (hess_nnzHSS' _ =? sp_nnz p); reflexivity.
Qed.

(** C3, as the code has it.  With assertions compiled in ([NDEBUG] not
    defined), a call of the MDS [eval_Hess_Lagr] whose handle downcasts and
    in which the user's Hessian callback reports a nonzero count for the
    sparse-dense coupling block fails the assertion [nnzHSD==0]: the call
    does not return, so in that build the entry is not dropped in
    silence. *)
Theorem MDS_eval_Hess_Lagr_coupling_asserts {T U} (interface : hiopInterfaceMDS U)
        x new_x obj_factor lambda new_lambda (Hess_L : hiopMatrix) (p : MDSBlocks)
        (s : state T U) :
  dynamic_cast_hiopMatrixSymBlockDiagMDS Hess_L = Some p ->
  hess_nnzHSD'
    (fst (eval_Hess_Lagr_user interface
            (Hess_Lagr_request (this s) x new_x obj_factor lambda new_lambda p)
            (user s))) <> 0 ->
  fst (hiopNlpMDS.eval_Hess_Lagr false interface x new_x obj_factor lambda new_lambda
                                 Hess_L s)
  = AssertionFailure "nnzHSD==0".
Proof.
  intros Hcast Hnz. apply cast_SymBlockDiagMDS_inv in Hcast. subst Hess_L.
  rewrite MDS_eval_Hess_Lagr_run. cbv zeta.
  apply Z.eqb_neq in Hnz. rewrite Hnz. reflexivity.
Qed.

Lemma MDS_eval_Hess_Lagr_coupling_asserts_witness :
  fst (hiopNlpMDS.eval_Hess_Lagr false (Scenario.coupled true) Scenario.x0 true 1%float
                                 Scenario.lambda0 true
                                 (MatrixSymBlockDiagMDS Scenario.blocks) Scenario.start)
  = AssertionFailure "nnzHSD==0".
Proof.
  apply (MDS_eval_Hess_Lagr_coupling_asserts (Scenario.coupled true) Scenario.x0 true
           1%float Scenario.lambda0 true (MatrixSymBlockDiagMDS Scenario.blocks)
           Scenario.blocks Scenario.start).
  - reflexivity.
  - simpl. discriminate.
Defined.

(** C3 fails as stated, for every build: compiled with [NDEBUG], the
    call of scenario C (the callback reports one nonzero in the coupling
    block) fails no assertion.  It returns the callback's [true] and the
    matrix with its sparse and dense blocks; the reported entry is
    nowhere. *)
Lemma MDS_eval_Hess_Lagr_coupling_dropped :
  dynamic_cast_hiopMatrixSymBlockDiagMDS (MatrixSymBlockDiagMDS Scenario.blocks)
  = Some Scenario.blocks
  /\
  hess_nnzHSD'
    (fst (eval_Hess_Lagr_user (Scenario.coupled true)
            (Hess_Lagr_request Scenario.finalized Scenario.x0 true 1%float
                               Scenario.lambda0 true Scenario.blocks)
            0%nat)) = 1
  /\
  hiopNlpMDS.eval_Hess_Lagr true (Scenario.coupled true) Scenario.x0 true 1%float
                            Scenario.lambda0 true
                            (MatrixSymBlockDiagMDS Scenario.blocks) Scenario.start
  = (Returned (true, MatrixSymBlockDiagMDS Scenario.blocks),
     mkState Scenario.finalized 1%nat
             [ev_eval_Hess_Lagr
                (Hess_Lagr_request Scenario.finalized Scenario.x0 true 1%float
                                   Scenario.lambda0 true Scenario.blocks)]).
Proof.
  split; [reflexivity |]. split; reflexivity.
Qed.

(** Without assertions ([NDEBUG]) the same call returns the callback's
    result and the reported count is not looked at. *)
Lemma MDS_eval_Hess_Lagr_unchecked {T U} (interface : hiopInterfaceMDS U)
      x new_x obj_factor lambda new_lambda (p : MDSBlocks) (s : state T U) :
  exists H',
    fst (hiopNlpMDS.eval_Hess_Lagr true interface x new_x obj_factor lambda new_lambda
                                   (MatrixSymBlockDiagMDS p) s)
    = Returned (hess_ret (fst (eval_Hess_Lagr_user interface
                                 (Hess_Lagr_request (this s) x new_x obj_factor lambda
                                                    new_lambda p)
                                 (user s))), H').
Proof.
  rewrite MDS_eval_Hess_Lagr_run. cbv zeta. eexists. reflexivity.
Qed.

(** ** The dense specialization *)

(** C2. [eval_Jac_c] and [eval_Jac_d] of the dense specialization, called
    with a handle that is not a dense matrix, log the internal-error message
    and return [false]; nothing else is called, so the user's Jacobian
    callback is not invoked.  With a dense handle they forward to the
    evaluation on the raw rows and end as it ends. *)
Theorem dense_eval_Jac_checks_handle {T U}
        (raw_c raw_d : list double -> bool -> list (list double) ->
                       M T U (bool * list (list double)))
        x new_x (Jac : hiopMatrix) (s : state T U) :
  (dynamic_cast_hiopMatrixDense Jac = None ->
   hiopNlpDenseConstraints.eval_Jac_c raw_c x new_x Jac s
   = (Returned (false, Jac),
      mkState (this s) (user s)
              (trace s ++ [ev_log_printf hovError
                                         hiopNlpDenseConstraints.internal_error_msg]))
   /\
   hiopNlpDenseConstraints.eval_Jac_d raw_d x new_x Jac s
   = (Returned (false, Jac),
      mkState (this s) (user s)
              (trace s ++ [ev_log_printf hovError
                                         hiopNlpDenseConstraints.internal_error_msg])))
  /\
  (forall D, dynamic_cast_hiopMatrixDense Jac = Some D ->
   hiopNlpDenseConstraints.eval_Jac_c raw_c x new_x Jac s
   = (map_outcome (fun r => (fst r, MatrixDense (mkMatrixDense (snd r))))
                  (fst (raw_c x new_x (dense_local_data D) s)),
      snd (raw_c x new_x (dense_local_data D) s))
   /\
   hiopNlpDenseConstraints.eval_Jac_d raw_d x new_x Jac s
   = (map_outcome (fun r => (fst r, MatrixDense (mkMatrixDense (snd r))))
                  (fst (raw_d x new_x (dense_local_data D) s)),
      snd (raw_d x new_x (dense_local_data D) s))).
Proof.
  split.
  - intros Hcast.
    unfold hiopNlpDenseConstraints.eval_Jac_c, hiopNlpDenseConstraints.eval_Jac_d.
    rewrite Hcast. split; reflexivity.
  - intros D Hcast.
    unfold hiopNlpDenseConstraints.eval_Jac_c, hiopNlpDenseConstraints.eval_Jac_d.
    rewrite Hcast. unfold bind, ret.
    split.
    + destruct (raw_c x new_x (dense_local_data D) s) as [[r | e | e |] s']; reflexivity.
    + destruct (raw_d x new_x (dense_local_data D) s) as [[r | e | e |] s']; reflexivity.
Qed.

Lemma dense_eval_Jac_checks_handle_witness :
  hiopNlpDenseConstraints.eval_Jac_c Scenario.raw_ok Scenario.x0 true
                                     (MatrixMDS Scenario.blocks) Scenario.start
  = (Returned (false, MatrixMDS Scenario.blocks),
     mkState Scenario.finalized 0%nat
             [ev_log_printf hovError hiopNlpDenseConstraints.internal_error_msg])
  /\
  hiopNlpDenseConstraints.eval_Jac_c Scenario.raw_ok Scenario.x0 true
                                     (MatrixDense (mkMatrixDense [[2%float]]))
                                     Scenario.start
  = (Returned (true, MatrixDense (mkMatrixDense [[2%float]])), Scenario.start).
Proof.
  split.
  - exact (proj1 (proj1 (dense_eval_Jac_checks_handle Scenario.raw_ok Scenario.raw_ok
                           Scenario.x0 true (MatrixMDS Scenario.blocks) Scenario.start)
                        eq_refl)).
  - exact (proj1 (proj2 (dense_eval_Jac_checks_handle Scenario.raw_ok Scenario.raw_ok
                           Scenario.x0 true (MatrixDense (mkMatrixDense [[2%float]]))
                           Scenario.start)
                        (mkMatrixDense [[2%float]]) eq_refl)).
Defined.

(** C4, as the code has it.  With assertions compiled in ([NDEBUG] not
    defined), every call of the dense specialization's [eval_Hess_Lagr] is
    an assertion failure and leaves the state as it was; and in no build
    does the call return [false]. *)
Theorem dense_eval_Hess_Lagr_asserts {T U} x new_x obj_factor lambda new_lambda
        (Hess_L : hiopMatrix) (s : state T U) :
  hiopNlpDenseConstraints.eval_Hess_Lagr false x new_x obj_factor lambda new_lambda Hess_L s
  = (AssertionFailure hiopNlpDenseConstraints.quasi_newton_only, s)
  /\
  forall NDEBUG H',
    fst (hiopNlpDenseConstraints.eval_Hess_Lagr NDEBUG x new_x obj_factor lambda new_lambda
                                                Hess_L s)
    <> Returned (false, H').
Proof.
  split; [reflexivity |].
  intros [|] H'; unfold hiopNlpDenseConstraints.eval_Hess_Lagr, bind, assert, ret; simpl;
    discriminate.
Qed.

(** C4 fails as stated, for every build: compiled with [NDEBUG], a call of
    the dense [eval_Hess_Lagr] is no assertion failure.  It returns, with
    [true], and has done nothing. *)
Lemma dense_eval_Hess_Lagr_returns_unchecked :
  hiopNlpDenseConstraints.eval_Hess_Lagr true Scenario.x0 true 1%float Scenario.lambda0
                                         true (MatrixDense (mkMatrixDense [[2%float]]))
                                         Scenario.start
  = (Returned (true, MatrixDense (mkMatrixDense [[2%float]])), Scenario.start).
Proof. reflexivity. Qed.

(** Without assertions the call returns [true] and does nothing. *)
Lemma dense_eval_Hess_Lagr_unchecked {T U} x new_x obj_factor lambda new_lambda
      (Hess_L : hiopMatrix) (s : state T U) :
  hiopNlpDenseConstraints.eval_Hess_Lagr true x new_x obj_factor lambda new_lambda Hess_L s
  = (Returned (true, Hess_L), s).
Proof. reflexivity. Qed.

(** ** What the MDS methods return *)




(** ** The reporting callbacks *)

Create HintDb frame.

Lemma preserves_ret {T U A} (a : A) : preserves_this (@ret T U A a).
Proof. intros s. reflexivity. Qed.

Lemma preserves_throw {T U A} (e : exn) : preserves_this (@throw T U A e).
Proof. intros s. reflexivity. Qed.

Lemma preserves_get_this {T U} : preserves_this (@get_this T U).
Proof. intros s. reflexivity. Qed.

Lemma preserves_assert {T U} NDEBUG cond expr : preserves_this (@assert T U NDEBUG cond expr).
Proof. intros s. unfold assert. destruct NDEBUG, cond; reflexivity. Qed.

Lemma preserves_call_user {T U Args Out} (ev : Args -> event)
      (callback : Args -> U -> Out * U) (a : Args) :
  preserves_this (@call_user T U Args Out ev callback a).
Proof. intros s. rewrite call_user_run. reflexivity. Qed.

Lemma preserves_bind {T U A B} (c : M T U A) (k : A -> M T U B) :
  preserves_this c -> (forall a, preserves_this (k a)) -> preserves_this (bind c k).
Proof.
  intros Hc Hk s. unfold bind.
  specialize (Hc s). destruct (c s) as [[a | e | e |] s']; simpl in *; try assumption.
  rewrite Hk. assumption.
Qed.

Lemma preserves_cast_ref {T U} (v : hiopVector) : preserves_this (@cast_ref T U v).
Proof. intros s. unfold cast_ref. destruct v; reflexivity. Qed.

#[local] Hint Resolve preserves_ret preserves_throw preserves_get_this preserves_assert
  preserves_call_user preserves_cast_ref : frame.

Ltac frame := repeat (apply preserves_bind; [auto with frame | intros ?]); auto with frame.

Lemma preserves_user_callback_solution {T U} NDEBUG (interface_base : hiopInterfaceBase U)
      status x z_L z_U c d yc yd obj_value :
  preserves_this (@user_callback_solution T U NDEBUG interface_base status
                                          x z_L z_U c d yc yd obj_value).
Proof. unfold user_callback_solution. frame. Qed.

Lemma preserves_user_callback_iterate {T U} NDEBUG (interface_base : hiopInterfaceBase U)
      iter obj_value x z_L z_U c d yc yd inf_pr inf_du mu alpha_du alpha_pr ls_trials :
  preserves_this (@user_callback_iterate T U NDEBUG interface_base iter obj_value
                                         x z_L z_U c d yc yd
                                         inf_pr inf_du mu alpha_du alpha_pr ls_trials).
Proof. unfold user_callback_iterate. frame. Qed.

(** C8. [user_callback_solution] and [user_callback_iterate] do not change
    the formulation object (dimensions, bound and indicator vectors, mapping
    arrays, transformation chain): it is the same after the call as before,
    whatever the arguments, the build and the way the call ends. *)
Theorem user_callbacks_leave_formulation {T U} NDEBUG (interface_base : hiopInterfaceBase U)
        status iter obj_value x z_L z_U c d yc yd
        inf_pr inf_du mu alpha_du alpha_pr ls_trials (s : state T U) :
  this (snd (user_callback_solution NDEBUG interface_base status x z_L z_U c d yc yd
                                    obj_value s))
  = this s
  /\
  this (snd (user_callback_iterate NDEBUG interface_base iter obj_value x z_L z_U c d yc yd
                                   inf_pr inf_du mu alpha_du alpha_pr ls_trials s))
  = this s.
Proof.
  split.
  - apply preserves_user_callback_solution.
  - apply preserves_user_callback_iterate.
Qed.

(** The two blocks of scenario B put back in the user's order. *)
Example assemble_scenario_B :
  assemble Scenario.finalized Scenario.c_block Scenario.d_block
  = [4%float; 3%float; 5%float; 1%float].
Proof. reflexivity. Qed.

(** C7, as the code has it.  When the point and the two bound multipliers
    are parallel vectors, the point has [n_vars] entries and the two
    constraint blocks have [n_cons] entries together, each of
    [user_callback_solution] and [user_callback_iterate] invokes the user's
    hook exactly once with the variable count (narrowed to [int]), the local
    arrays of the point and of the lower- and upper-bound multipliers, the
    constraint count (narrowed to [int]), a null pointer for the constraint
    values, a null pointer for the constraint multipliers, and the objective
    value; [user_callback_iterate] returns what the hook returns. *)
Theorem user_callbacks_report_without_constraints {T U} NDEBUG
        (interface_base : hiopInterfaceBase U)
        status iter obj_value (xp zl zu : hiopVectorPar) (c d yc yd : hiopVector)
        inf_pr inf_du mu alpha_du alpha_pr ls_trials (s : state T U) :
  vec_get_size xp = n_vars (this s) ->
  add_ll (get_size c) (get_size d) = n_cons (this s) ->
  user_callback_solution NDEBUG interface_base status
                         (VectorPar xp) (VectorPar zl) (VectorPar zu) c d yc yd obj_value s
  = (Returned tt,
     mkState (this s)
             (solution_callback interface_base
                (mkSolArgs status (to_int (n_vars (this s)))
                           (local_data xp) (local_data zl) (local_data zu)
                           (to_int (n_cons (this s))) None None obj_value)
                (user s))
             (trace s ++
                [ev_solution_callback
                   (mkSolArgs status (to_int (n_vars (this s)))
                              (local_data xp) (local_data zl) (local_data zu)
                              (to_int (n_cons (this s))) None None obj_value)]))
  /\
  user_callback_iterate NDEBUG interface_base iter obj_value
                        (VectorPar xp) (VectorPar zl) (VectorPar zu) c d yc yd
                        inf_pr inf_du mu alpha_du alpha_pr ls_trials s
  = (Returned
       (fst (iterate_callback interface_base
               (mkIterArgs iter obj_value (to_int (n_vars (this s)))
                           (local_data xp) (local_data zl) (local_data zu)
                           (to_int (n_cons (this s))) None None
                           inf_pr inf_du mu alpha_du alpha_pr ls_trials)
               (user s))),
     mkState (this s)
             (snd (iterate_callback interface_base
                     (mkIterArgs iter obj_value (to_int (n_vars (this s)))
                                 (local_data xp) (local_data zl) (local_data zu)
                                 (to_int (n_cons (this s))) None None
                                 inf_pr inf_du mu alpha_du alpha_pr ls_trials)
                     (user s)))
             (trace s ++
                [ev_iterate_callback
                   (mkIterArgs iter obj_value (to_int (n_vars (this s)))
                               (local_data xp) (local_data zl) (local_data zu)
                               (to_int (n_cons (this s))) None None
                               inf_pr inf_du mu alpha_du alpha_pr ls_trials)])).
Proof.
  intros Hx Hcd.
  unfold user_callback_solution, user_callback_iterate, bind, cast_ref, assert, get_this, ret.
  simpl. rewrite Hx, Hcd, !Z.eqb_refl.
  split; destruct NDEBUG; rewrite call_user_run; reflexivity.
Qed.

Lemma user_callbacks_report_without_constraints_witness :
  Scenario.solution_run
  = (Returned tt,
     mkState Scenario.finalized 1%nat
             [ev_solution_callback
                (mkSolArgs 0 2 Scenario.x0 [0.25%float; 0%float] [0%float; 0.75%float]
                           4 None None 12%float)]).
Proof.
  exact (proj1 (user_callbacks_report_without_constraints false Scenario.reporting
                  0 3 12%float
                  (Scenario.vec Scenario.x0)
                  (Scenario.vec [0.25%float; 0%float])
                  (Scenario.vec [0%float; 0.75%float])
                  (VectorPar (Scenario.vec Scenario.c_block))
                  (VectorPar (Scenario.vec Scenario.d_block))
                  (VectorPar (Scenario.vec Scenario.yc_block))
                  (VectorPar (Scenario.vec Scenario.yd_block))
                  0%float 0%float 0.125%float 1%float 1%float 0
                  Scenario.start eq_refl eq_refl)).
Defined.

(** C7 fails as stated: on the problem of scenario B each hook is invoked
    once, and what it receives for the constraint values and for the
    constraint multipliers is not the assembled arrays. *)
Lemma user_callbacks_report_null_constraints :
  (exists a,
     trace (snd Scenario.solution_run) = [ev_solution_callback a] /\
     sol_g a = None /\ sol_lambda a = None /\
     ~ receives_assembled Scenario.finalized
         Scenario.c_block Scenario.d_block Scenario.yc_block Scenario.yd_block
         (sol_g a) (sol_lambda a))
  /\
  (exists a,
     trace (snd Scenario.iterate_run) = [ev_iterate_callback a] /\
     it_g a = None /\ it_lambda a = None /\
     ~ receives_assembled Scenario.finalized
         Scenario.c_block Scenario.d_block Scenario.yc_block Scenario.yd_block
         (it_g a) (it_lambda a)).
Proof.
  split; eexists; (split; [reflexivity |]); simpl;
    (split; [reflexivity |]); (split; [reflexivity |]);
    intros [Hg _]; discriminate Hg.
Qed.

(** ** From the internal point to the user's *)

Lemma memcpy_doubles (dst src : list double) (k : Z) :
  0 <= k < 2 ^ 61 ->
  k <= Z.of_nat (List.length src) ->
  k <= Z.of_nat (List.length dst) ->
  memcpy dst src (mul_size_t k sizeof_double)
  = Some (firstn (Z.to_nat k) src ++ skipn (Z.to_nat k) dst).
Proof.
  intros Hk Hsrc Hdst. unfold memcpy, mul_size_t, sizeof_double.
  rewrite Z.mod_small by (change (2 ^ 64) with (2 ^ 61 * 8); lia).
  rewrite Z.div_mul by lia.
  replace (Z.to_nat k <=? List.length src)%nat with true
    by (symmetry; apply Nat.leb_le; lia).
  replace (Z.to_nat k <=? List.length dst)%nat with true
    by (symmetry; apply Nat.leb_le; lia).
  reflexivity.
Qed.

(** C10. [user_x(hiop_x, user_x)] passes the local array of the internal
    point through [applyTox] with [new_x = true] and then copies
    [n_post_local()] doubles of the array it got back, read on the chain as
    [applyTox] left it, to the front of the caller's array; the rest of the
    caller's array stays.  The local size of [hiop_x] plays no part. *)
Theorem user_x_copies_n_post_local {T U} `{NlpTransformations T}
        (hiop_x : hiopVectorPar) (buffer : list double) (s : state T U)
        (user_xa : list double) (t' : T) (k : Z) :
  applyTox (nlp_transformations (this s)) (local_data hiop_x) true = (user_xa, t') ->
  n_post_local t' = k ->
  0 <= k < 2 ^ 61 ->
  k <= Z.of_nat (List.length user_xa) ->
  k <= Z.of_nat (List.length buffer) ->
  user_x hiop_x buffer s
  = (Returned (firstn (Z.to_nat k) user_xa ++ skipn (Z.to_nat k) buffer),
     mkState (set_nlp_transformations (this s) t') (user s) (trace s)).
Proof.
  intros Happly Hn Hk Hsrc Hdst.
  unfold user_x, bind, get_this, put_this. simpl.
  rewrite Happly. simpl. rewrite Hn.
  rewrite memcpy_doubles by assumption. reflexivity.
Qed.

Lemma user_x_copies_n_post_local_witness :
  get_local_size (Scenario.vec Scenario.x0) = 2 /\
  user_x (Scenario.vec Scenario.x0) [0%float; 0%float; 0%float; 9%float] Scenario.start
  = (Returned [0.5%float; 4%float; 2%float; 9%float], Scenario.start).
Proof.
  split; [reflexivity |].
  apply (user_x_copies_n_post_local (Scenario.vec Scenario.x0)
           [0%float; 0%float; 0%float; 9%float] Scenario.start
           [0.5%float; 4%float; 2%float] Scenario.chain_A 3).
  - reflexivity.
  - reflexivity.
  - lia.
  - simpl. lia.
  - simpl. lia.
Defined.

(** ** The constraint mappings after finalization *)

Lemma filter_split_length {A} (f : A -> bool) (l : list A) :
  (List.length (filter f l) + List.length (filter (fun a => negb (f a)) l)
   = List.length l)%nat.
Proof.
  induction l as [| a l IH]; simpl; [reflexivity |].
  destruct (f a); simpl; lia.
Qed.

Lemma filter_split_permutation {A} (f : A -> bool) (l : list A) :
  Permutation (filter f l ++ filter (fun a => negb (f a)) l) l.
Proof.
  induction l as [| a l IH]; simpl; [constructor |].
  destruct (f a); simpl.
  - constructor. exact IH.
  - symmetry. apply Permutation_cons_app. symmetry. exact IH.
Qed.

Lemma NoDup_map_of_nat (l : list nat) : NoDup l -> NoDup (map Z.of_nat l).
Proof.
  induction 1 as [| a l Hnotin Hnodup IH]; simpl; constructor; [| exact IH].
  rewrite in_map_iff. intros [b [Hb Hin]].
  apply Nat2Z.inj in Hb. subst b. contradiction.
Qed.

Lemma in_map_indices (k i : Z) :
  0 <= k -> In i (map Z.of_nat (indices k)) <-> 0 <= i < k.
Proof.
  intros Hk. unfold indices. rewrite in_map_iff. split.
  - intros [j [Hj Hin]]. apply in_seq in Hin. lia.
  - intros Hi. exists (Z.to_nat i). split; [lia |]. apply in_seq. lia.
Qed.

(** Finalization succeeds exactly when the dimensions are not negative and
    both bound arrays are consistent, and then it installs the split. *)
Lemma finalizeInitialization_run {T U} (is_equality : double -> double -> bool)
      (prob : problem_data) (s : state T U) :
  finalizeInitialization is_equality prob s
  = if (prob_n prob <? 0) || (prob_m prob <? 0)
       || negb (bounds_consistent (vars_lower prob) (vars_upper prob) (prob_n prob))
       || negb (bounds_consistent (cons_lower prob) (cons_upper prob) (prob_m prob))
    then (Returned false, s)
    else (Returned true,
          mkState (with_constraints (this s) prob
                     (filter (tagged_equality is_equality prob) (indices (prob_m prob)))
                     (filter (fun i => negb (tagged_equality is_equality prob i))
                             (indices (prob_m prob))))
                  (user s) (trace s)).
Proof.
  unfold finalizeInitialization.
  destruct ((prob_n prob <? 0) || (prob_m prob <? 0)); [reflexivity |].
  destruct (bounds_consistent (vars_lower prob) (vars_upper prob) (prob_n prob));
    [| reflexivity].
  destruct (bounds_consistent (cons_lower prob) (cons_upper prob) (prob_m prob));
    reflexivity.
Qed.

(** C5. After [finalizeInitialization] succeeds, [cons_eq_mapping] has
    length [n_cons_eq], [cons_ineq_mapping] has length [n_cons_ineq],
    [n_cons_eq + n_cons_ineq == n_cons], and the two arrays together are a
    rearrangement of [0, ..., n_cons-1]: every original index occurs, none
    occurs twice, and nothing else occurs. *)
Theorem finalizeInitialization_partitions_constraints {T U}
        (is_equality : double -> double -> bool) (prob : problem_data)
        (s s' : state T U) :
  finalizeInitialization is_equality prob s = (Returned true, s') ->
  Z.of_nat (List.length (cons_eq_mapping (this s'))) = n_cons_eq (this s') /\
  Z.of_nat (List.length (cons_ineq_mapping (this s'))) = n_cons_ineq (this s') /\
  n_cons_eq (this s') + n_cons_ineq (this s') = n_cons (this s') /\
  Permutation (cons_eq_mapping (this s') ++ cons_ineq_mapping (this s'))
              (map Z.of_nat (indices (n_cons (this s')))) /\
  NoDup (cons_eq_mapping (this s') ++ cons_ineq_mapping (this s')) /\
  (forall i, In i (cons_eq_mapping (this s') ++ cons_ineq_mapping (this s'))
             <-> 0 <= i < n_cons (this s')).
Proof.
  rewrite finalizeInitialization_run.
  destruct (prob_n prob <? 0) eqn:Hn; [discriminate |].
  destruct (prob_m prob <? 0) eqn:Hm; [discriminate |].
  apply Z.ltb_ge in Hm. simpl.
  destruct (negb _ || negb _); [discriminate |].
  intros E. injection E as E. subst s'. simpl.
  set (eqs := filter (tagged_equality is_equality prob) (indices (prob_m prob))).
  set (ineqs := filter (fun i => negb (tagged_equality is_equality prob i))
                      (indices (prob_m prob))).
  assert (Hperm : Permutation (map Z.of_nat eqs ++ map Z.of_nat ineqs)
                              (map Z.of_nat (indices (prob_m prob)))).
  { rewrite <- map_app. apply Permutation_map. apply filter_split_permutation. }
  assert (Hnodup : NoDup (map Z.of_nat (indices (prob_m prob)))).
  { apply NoDup_map_of_nat. apply seq_NoDup. }
  rewrite !length_map.
  split; [reflexivity |]. split; [reflexivity |].
  split; [| split; [exact Hperm | split]].
  - pose proof (filter_split_length (tagged_equality is_equality prob)
                                    (indices (prob_m prob))) as Hlen.
    fold eqs ineqs in Hlen.
    assert (Hidx : List.length (indices (prob_m prob)) = Z.to_nat (prob_m prob))
      by apply length_seq.
    lia.
  - apply (Permutation_NoDup (Permutation_sym Hperm) Hnodup).
  - intros i. rewrite <- (in_map_indices (prob_m prob) i Hm). split.
    + apply (Permutation_in i Hperm).
    + apply (Permutation_in i (Permutation_sym Hperm)).
Qed.

(** Scenario B: rows 1 and 3 are equalities, rows 0 and 2 inequalities. *)
Lemma finalizeInitialization_partitions_constraints_witness :
  exists s' : state Scenario.fixed_vars_chain Scenario.calls,
    finalizeInitialization PrimFloat.eqb Scenario.problem_B
                           (mkState Scenario.constructed 0%nat [])
    = (Returned true, s') /\
    cons_eq_mapping (this s') = [1; 3] /\
    cons_ineq_mapping (this s') = [0; 2] /\
    n_cons_eq (this s') = 2 /\ n_cons_ineq (this s') = 2 /\ n_cons (this s') = 4 /\
    Permutation (cons_eq_mapping (this s') ++ cons_ineq_mapping (this s'))
                (map Z.of_nat (indices (n_cons (this s')))).
Proof.
  eexists. split; [vm_compute; reflexivity |].
  repeat (split; [reflexivity |]).
  refine (proj1 (proj2 (proj2 (proj2
           (finalizeInitialization_partitions_constraints PrimFloat.eqb Scenario.problem_B
              (mkState Scenario.constructed 0%nat []) _ _))))).
  vm_compute. reflexivity.
Defined.

(** * Further properties of the inline methods *)

(** ** MDS: a handle of the wrong class *)

(** X1. The MDS [eval_Jac_c] and [eval_Jac_d], called with a handle that
    does not downcast to the mixed sparse-dense matrix class, never reach
    the user's callback: the state is as before the call.  With assertions
    compiled in the call fails the assertion on the cast pointer; with
    [NDEBUG] it returns [false] and the handle as it was. *)
Theorem MDS_eval_Jac_wrong_handle {T U} NDEBUG (interface : hiopInterfaceMDS U)
        x new_x (Jac : hiopMatrix) (s : state T U) :
  dynamic_cast_hiopMatrixMDS Jac = None ->
  hiopNlpMDS.eval_Jac_c NDEBUG interface x new_x Jac s
  = (if NDEBUG then Returned (false, Jac) else AssertionFailure "pJac_c", s)
  /\
  hiopNlpMDS.eval_Jac_d NDEBUG interface x new_x Jac s
  = (if NDEBUG then Returned (false, Jac) else AssertionFailure "pJac_d", s).
Proof.
  intros Hcast.
  unfold hiopNlpMDS.eval_Jac_c, hiopNlpMDS.eval_Jac_d, bind, assert, ret.
  rewrite Hcast. destruct NDEBUG; split; reflexivity.
Qed.

Lemma MDS_eval_Jac_wrong_handle_witness :
  hiopNlpMDS.eval_Jac_c false Scenario.block_diagonal Scenario.x0 true
                        (MatrixSymBlockDiagMDS Scenario.blocks) Scenario.start
  = (AssertionFailure "pJac_c", Scenario.start)
  /\
  hiopNlpMDS.eval_Jac_d true Scenario.block_diagonal Scenario.x0 true
                        (MatrixDense (mkMatrixDense [[2%float]])) Scenario.start
  = (Returned (false, MatrixDense (mkMatrixDense [[2%float]])), Scenario.start).
Proof.
  split.
  - exact (proj1 (MDS_eval_Jac_wrong_handle false Scenario.block_diagonal Scenario.x0 true
                    (MatrixSymBlockDiagMDS Scenario.blocks) Scenario.start eq_refl)).
  - exact (proj2 (MDS_eval_Jac_wrong_handle true Scenario.block_diagonal Scenario.x0 true
                    (MatrixDense (mkMatrixDense [[2%float]])) Scenario.start eq_refl)).
Defined.

(** X2. The MDS [eval_Hess_Lagr], called with a handle that does not
    downcast to the symmetric block-diagonal MDS class, never reaches the
    user's Hessian callback: with assertions compiled in it fails the
    assertion on the cast pointer, with [NDEBUG] it returns [false]; the
    state is as before the call in both builds. *)
Theorem MDS_eval_Hess_Lagr_wrong_handle {T U} NDEBUG (interface : hiopInterfaceMDS U)
        x new_x obj_factor lambda new_lambda (Hess_L : hiopMatrix) (s : state T U) :
  dynamic_cast_hiopMatrixSymBlockDiagMDS Hess_L = None ->
  hiopNlpMDS.eval_Hess_Lagr NDEBUG interface x new_x obj_factor lambda new_lambda Hess_L s
  = (if NDEBUG then Returned (false, Hess_L) else AssertionFailure "pHessL", s).
Proof.
  intros Hcast. unfold hiopNlpMDS.eval_Hess_Lagr, bind, assert, ret.
  rewrite Hcast. destruct NDEBUG; reflexivity.
Qed.

Lemma MDS_eval_Hess_Lagr_wrong_handle_witness :
  hiopNlpMDS.eval_Hess_Lagr false Scenario.block_diagonal Scenario.x0 true 1%float
                            Scenario.lambda0 true (MatrixMDS Scenario.blocks)
                            Scenario.start
  = (AssertionFailure "pHessL", Scenario.start).
Proof.
  exact (MDS_eval_Hess_Lagr_wrong_handle false Scenario.block_diagonal Scenario.x0 true
           1%float Scenario.lambda0 true (MatrixMDS Scenario.blocks) Scenario.start
           eq_refl).
Defined.

(** ** MDS: the Hessian callback *)

(** X3. When the handle downcasts, the MDS [eval_Hess_Lagr] invokes the
    user's Hessian callback exactly once, in every build and whether or not
    an assertion fails afterwards: the call carries [n_vars], [n_cons], the
    point, the objective factor and the multipliers, the sparse and dense
    dimension counts, [sp_nnz()] with the three sparse arrays, the dense
    block, and for the coupling block a count of zero and three null
    pointers.  The user's state is the one the callback leaves. *)
Theorem MDS_eval_Hess_Lagr_forwards_once {T U} NDEBUG (interface : hiopInterfaceMDS U)
        x new_x obj_factor lambda new_lambda (Hess_L : hiopMatrix) (p : MDSBlocks)
        (s : state T U) :
  dynamic_cast_hiopMatrixSymBlockDiagMDS Hess_L = Some p ->
  trace (snd (hiopNlpMDS.eval_Hess_Lagr NDEBUG interface x new_x obj_factor lambda
                                        new_lambda Hess_L s))
  = trace s ++
    [ev_eval_Hess_Lagr
       (mkHessArgs (n_vars (this s)) (n_cons (this s)) x new_x obj_factor lambda new_lambda
                   (n_sp p) (n_de p) (sp_nnz p) (sp_irow p) (sp_jcol p) (sp_M p)
                   (de_local_data p) 0 None None None)]
  /\
  user (snd (hiopNlpMDS.eval_Hess_Lagr NDEBUG interface x new_x obj_factor lambda
                                       new_lambda Hess_L s))
  = snd (eval_Hess_Lagr_user interface
           (mkHessArgs (n_vars (this s)) (n_cons (this s)) x new_x obj_factor lambda
                       new_lambda
                       (n_sp p) (n_de p) (sp_nnz p) (sp_irow p) (sp_jcol p) (sp_M p)
                       (de_local_data p) 0 None None None)
           (user s)).
Proof.
  intros Hcast. apply cast_SymBlockDiagMDS_inv in Hcast. subst Hess_L.
  rewrite MDS_eval_Hess_Lagr_run. cbv zeta.
  fold (Hess_Lagr_request (this s) x new_x obj_factor lambda new_lambda p).
  destruct NDEBUG; [split; reflexivity |].
  destruct (hess_nnzHSD' _ =? 0); [| split; reflexivity].
  destruct (hess_nnzHSS' _ =? sp_nnz p); split; reflexivity.
Qed.

Lemma MDS_eval_Hess_Lagr_forwards_once_witness :
  fst (hiopNlpMDS.eval_Hess_Lagr false (Scenario.coupled true) Scenario.x0 true 1%float
                                 Scenario.lambda0 true
                                 (MatrixSymBlockDiagMDS Scenario.blocks) Scenario.start)
  = AssertionFailure "nnzHSD==0"
  /\
  trace (snd (hiopNlpMDS.eval_Hess_Lagr false (Scenario.coupled true) Scenario.x0 true
                                        1%float Scenario.lambda0 true
                                        (MatrixSymBlockDiagMDS Scenario.blocks)
                                        Scenario.start))
  = [ev_eval_Hess_Lagr
       (mkHessArgs 2 4 Scenario.x0 true 1%float Scenario.lambda0 true
                   1 1 1 [0] [0] [1%float] [[2%float]] 0 None None None)]
  /\
  user (snd (hiopNlpMDS.eval_Hess_Lagr false (Scenario.coupled true) Scenario.x0 true
                                       1%float Scenario.lambda0 true
                                       (MatrixSymBlockDiagMDS Scenario.blocks)
                                       Scenario.start))
  = 1%nat.
Proof.
  split; [reflexivity |].
  exact (MDS_eval_Hess_Lagr_forwards_once false (Scenario.coupled true) Scenario.x0 true
           1%float Scenario.lambda0 true (MatrixSymBlockDiagMDS Scenario.blocks)
           Scenario.blocks Scenario.start eq_refl).
Defined.

(** X4. With assertions compiled in, a call of the MDS [eval_Hess_Lagr] in
    which the callback leaves the coupling count at zero and hands back a
    sparse nonzero count other than the matrix's [sp_nnz()] fails the
    assertion [nnzHSS==pHessL->sp_nnz()], whatever the callback returned. *)
Theorem MDS_eval_Hess_Lagr_sparse_count_asserts {T U} (interface : hiopInterfaceMDS U)
        x new_x obj_factor lambda new_lambda (Hess_L : hiopMatrix) (p : MDSBlocks)
        (s : state T U) :
  dynamic_cast_hiopMatrixSymBlockDiagMDS Hess_L = Some p ->
  hess_nnzHSD'
    (fst (eval_Hess_Lagr_user interface
            (Hess_Lagr_request (this s) x new_x obj_factor lambda new_lambda p)
            (user s))) = 0 ->
  hess_nnzHSS'
    (fst (eval_Hess_Lagr_user interface
            (Hess_Lagr_request (this s) x new_x obj_factor lambda new_lambda p)
            (user s))) <> sp_nnz p ->
  fst (hiopNlpMDS.eval_Hess_Lagr false interface x new_x obj_factor lambda new_lambda
                                 Hess_L s)
  = AssertionFailure "nnzHSS==pHessL->sp_nnz()".
Proof.
  intros Hcast HSD HSS. apply cast_SymBlockDiagMDS_inv in Hcast. subst Hess_L.
  rewrite MDS_eval_Hess_Lagr_run. cbv zeta.
  apply Z.eqb_neq in HSS. rewrite HSD, HSS. reflexivity.
Qed.

Lemma MDS_eval_Hess_Lagr_sparse_count_asserts_witness :
  fst (hiopNlpMDS.eval_Hess_Lagr false Edge.recounting Scenario.x0 true 1%float
                                 Scenario.lambda0 true
                                 (MatrixSymBlockDiagMDS Scenario.blocks) Scenario.start)
  = AssertionFailure "nnzHSS==pHessL->sp_nnz()".
Proof.
  apply (MDS_eval_Hess_Lagr_sparse_count_asserts Edge.recounting Scenario.x0 true 1%float
           Scenario.lambda0 true (MatrixSymBlockDiagMDS Scenario.blocks) Scenario.blocks
           Scenario.start).
  - reflexivity.
  - reflexivity.
  - simpl. discriminate.
Defined.

(** X5. With [NDEBUG] the MDS [eval_Hess_Lagr] looks at neither count the
    callback hands back: whenever the handle downcasts it returns the
    callback's boolean and the matrix with the arrays the callback wrote,
    also when the callback reported nonzeros in the coupling block. *)
Theorem MDS_eval_Hess_Lagr_unchecked_returns {T U} (interface : hiopInterfaceMDS U)
        x new_x obj_factor lambda new_lambda (Hess_L : hiopMatrix) (p : MDSBlocks)
        (s : state T U) :
  dynamic_cast_hiopMatrixSymBlockDiagMDS Hess_L = Some p ->
  fst (hiopNlpMDS.eval_Hess_Lagr true interface x new_x obj_factor lambda new_lambda
                                 Hess_L s)
  = Returned
      (hess_ret (fst (eval_Hess_Lagr_user interface
                        (Hess_Lagr_request (this s) x new_x obj_factor lambda new_lambda p)
                        (user s))),
       MatrixSymBlockDiagMDS
         (mkMDSBlocks (n_sp p) (n_de p) (sp_nnz p)
            (hess_iHSS' (fst (eval_Hess_Lagr_user interface
                                (Hess_Lagr_request (this s) x new_x obj_factor lambda
                                                   new_lambda p) (user s))))
            (hess_jHSS' (fst (eval_Hess_Lagr_user interface
                                (Hess_Lagr_request (this s) x new_x obj_factor lambda
                                                   new_lambda p) (user s))))
            (hess_MHSS' (fst (eval_Hess_Lagr_user interface
                                (Hess_Lagr_request (this s) x new_x obj_factor lambda
                                                   new_lambda p) (user s))))
            (hess_HDD' (fst (eval_Hess_Lagr_user interface
                               (Hess_Lagr_request (this s) x new_x obj_factor lambda
                                                  new_lambda p) (user s)))))).
Proof.
  intros Hcast. apply cast_SymBlockDiagMDS_inv in Hcast. subst Hess_L.
  rewrite MDS_eval_Hess_Lagr_run. reflexivity.
Qed.

Lemma MDS_eval_Hess_Lagr_unchecked_returns_witness :
  fst (hiopNlpMDS.eval_Hess_Lagr true (Scenario.coupled false) Scenario.x0 true 1%float
                                 Scenario.lambda0 true
                                 (MatrixSymBlockDiagMDS Scenario.blocks) Scenario.start)
  = Returned (false, MatrixSymBlockDiagMDS Scenario.blocks).
Proof.
  exact (MDS_eval_Hess_Lagr_unchecked_returns (Scenario.coupled false) Scenario.x0 true
           1%float Scenario.lambda0 true (MatrixSymBlockDiagMDS Scenario.blocks)
           Scenario.blocks Scenario.start eq_refl).
Defined.

(** ** MDS: the formulation object *)

Lemma preserves_MDS_eval_Jac_c {T U} NDEBUG (interface : hiopInterfaceMDS U) x new_x Jac :
  preserves_this (@hiopNlpMDS.eval_Jac_c T U NDEBUG interface x new_x Jac).
Proof. unfold hiopNlpMDS.eval_Jac_c. destruct Jac; simpl; frame. Qed.

Lemma preserves_MDS_eval_Jac_d {T U} NDEBUG (interface : hiopInterfaceMDS U) x new_x Jac :
  preserves_this (@hiopNlpMDS.eval_Jac_d T U NDEBUG interface x new_x Jac).
Proof. unfold hiopNlpMDS.eval_Jac_d. destruct Jac; simpl; frame. Qed.

Lemma preserves_MDS_eval_Hess_Lagr {T U} NDEBUG (interface : hiopInterfaceMDS U)
      x new_x obj_factor lambda new_lambda Hess_L :
  preserves_this (@hiopNlpMDS.eval_Hess_Lagr T U NDEBUG interface x new_x obj_factor
                                             lambda new_lambda Hess_L).
Proof. unfold hiopNlpMDS.eval_Hess_Lagr. destruct Hess_L; simpl; frame. Qed.

(** X6. None of the three MDS evaluation methods changes the formulation
    object: whatever the handle, the callback, the build and the way the
    call ends, dimensions, bounds, mappings and transformation chain are
    after the call what they were before. *)
Theorem MDS_eval_leaves_formulation {T U} NDEBUG (interface : hiopInterfaceMDS U)
        x new_x obj_factor lambda new_lambda (Jac Hess_L : hiopMatrix) (s : state T U) :
  this (snd (hiopNlpMDS.eval_Jac_c NDEBUG interface x new_x Jac s)) = this s /\
  this (snd (hiopNlpMDS.eval_Jac_d NDEBUG interface x new_x Jac s)) = this s /\
  this (snd (hiopNlpMDS.eval_Hess_Lagr NDEBUG interface x new_x obj_factor lambda
                                       new_lambda Hess_L s)) = this s.
Proof.
  split; [apply preserves_MDS_eval_Jac_c |].
  split; [apply preserves_MDS_eval_Jac_d | apply preserves_MDS_eval_Hess_Lagr].
Qed.

(** ** The reporting callbacks: what stops them *)

(** The course of the two reporting methods once the three casts have
    succeeded. *)
Lemma user_callback_solution_run {T U} NDEBUG (interface_base : hiopInterfaceBase U)
      status (xp zl zu : hiopVectorPar) (c d yc yd : hiopVector) obj_value
      (s : state T U) :
  user_callback_solution NDEBUG interface_base status
                         (VectorPar xp) (VectorPar zl) (VectorPar zu) c d yc yd obj_value s
  = if NDEBUG || (vec_get_size xp =? n_vars (this s)) then
      if NDEBUG || (add_ll (get_size c) (get_size d) =? n_cons (this s)) then
        (Returned tt,
         mkState (this s)
                 (solution_callback interface_base
                    (mkSolArgs status (to_int (n_vars (this s)))
                               (local_data xp) (local_data zl) (local_data zu)
                               (to_int (n_cons (this s))) None None obj_value)
                    (user s))
                 (trace s ++
                    [ev_solution_callback
                       (mkSolArgs status (to_int (n_vars (this s)))
                                  (local_data xp) (local_data zl) (local_data zu)
                                  (to_int (n_cons (this s))) None None obj_value)]))
      else (AssertionFailure "c.get_size()+d.get_size()==n_cons", s)
    else (AssertionFailure "xp.get_size()==n_vars", s).
Proof.
  unfold user_callback_solution, bind, cast_ref, assert, get_this, ret. simpl.
  destruct NDEBUG; simpl; [rewrite call_user_run; reflexivity |].
  destruct (vec_get_size xp =? n_vars (this s)); [| reflexivity].
  destruct (add_ll (get_size c) (get_size d) =? n_cons (this s)); [| reflexivity].
  rewrite call_user_run. reflexivity.
Qed.

Lemma user_callback_iterate_run {T U} NDEBUG (interface_base : hiopInterfaceBase U)
      iter obj_value (xp zl zu : hiopVectorPar) (c d yc yd : hiopVector)
      inf_pr inf_du mu alpha_du alpha_pr ls_trials (s : state T U) :
  user_callback_iterate NDEBUG interface_base iter obj_value
                        (VectorPar xp) (VectorPar zl) (VectorPar zu) c d yc yd
                        inf_pr inf_du mu alpha_du alpha_pr ls_trials s
  = if NDEBUG || (vec_get_size xp =? n_vars (this s)) then
      if NDEBUG || (add_ll (get_size c) (get_size d) =? n_cons (this s)) then
        (Returned
           (fst (iterate_callback interface_base
                   (mkIterArgs iter obj_value (to_int (n_vars (this s)))
                               (local_data xp) (local_data zl) (local_data zu)
                               (to_int (n_cons (this s))) None None
                               inf_pr inf_du mu alpha_du alpha_pr ls_trials)
                   (user s))),
         mkState (this s)
                 (snd (iterate_callback interface_base
                         (mkIterArgs iter obj_value (to_int (n_vars (this s)))
                                     (local_data xp) (local_data zl) (local_data zu)
                                     (to_int (n_cons (this s))) None None
                                     inf_pr inf_du mu alpha_du alpha_pr ls_trials)
                         (user s)))
                 (trace s ++
                    [ev_iterate_callback
                       (mkIterArgs iter obj_value (to_int (n_vars (this s)))
                                   (local_data xp) (local_data zl) (local_data zu)
                                   (to_int (n_cons (this s))) None None
                                   inf_pr inf_du mu alpha_du alpha_pr ls_trials)]))
      else (AssertionFailure "c.get_size()+d.get_size()==n_cons", s)
    else (AssertionFailure "xp.get_size()==n_vars", s).
Proof.
  unfold user_callback_iterate, bind, cast_ref, assert, get_this, ret. simpl.
  destruct NDEBUG; simpl; [rewrite call_user_run; reflexivity |].
  destruct (vec_get_size xp =? n_vars (this s)); [| reflexivity].
  destruct (add_ll (get_size c) (get_size d) =? n_cons (this s)); [| reflexivity].
  rewrite call_user_run. reflexivity.
Qed.

(** X7. If the point, the lower-bound multipliers or the upper-bound
    multipliers are not a [hiopVectorPar], each reporting method ends with
    [std::bad_cast], in every build and before any size is checked; the
    user's hook is not invoked and the state is as before the call. *)
Theorem user_callbacks_bad_cast {T U} NDEBUG (interface_base : hiopInterfaceBase U)
        status iter obj_value (x z_L z_U c d yc yd : hiopVector)
        inf_pr inf_du mu alpha_du alpha_pr ls_trials (s : state T U) :
  dynamic_cast_hiopVectorPar x = None \/
  dynamic_cast_hiopVectorPar z_L = None \/
  dynamic_cast_hiopVectorPar z_U = None ->
  user_callback_solution NDEBUG interface_base status x z_L z_U c d yc yd obj_value s
  = (Thrown bad_cast, s)
  /\
  user_callback_iterate NDEBUG interface_base iter obj_value x z_L z_U c d yc yd
                        inf_pr inf_du mu alpha_du alpha_pr ls_trials s
  = (Thrown bad_cast, s).
Proof.
  intros Hcast.
  unfold user_callback_solution, user_callback_iterate, bind, cast_ref, throw, ret.
  destruct x as [xp | nx]; [| split; reflexivity].
  destruct z_L as [zl | nl]; [| split; reflexivity].
  destruct z_U as [zu | nu]; [| split; reflexivity].
  simpl in Hcast. destruct Hcast as [E | [E | E]]; discriminate E.
Qed.

Lemma user_callbacks_bad_cast_witness :
  user_callback_solution false Scenario.reporting 0
                         Scenario.x_vec Edge.foreign_vec Scenario.zu_vec
                         (VectorPar (Scenario.vec Scenario.c_block))
                         (VectorPar (Scenario.vec Scenario.d_block))
                         (VectorPar (Scenario.vec Scenario.yc_block))
                         (VectorPar (Scenario.vec Scenario.yd_block))
                         12%float Scenario.start
  = (Thrown bad_cast, Scenario.start).
Proof.
  exact (proj1 (user_callbacks_bad_cast false Scenario.reporting 0 3 12%float
                  Scenario.x_vec Edge.foreign_vec Scenario.zu_vec
                  (VectorPar (Scenario.vec Scenario.c_block))
                  (VectorPar (Scenario.vec Scenario.d_block))
                  (VectorPar (Scenario.vec Scenario.yc_block))
                  (VectorPar (Scenario.vec Scenario.yd_block))
                  0%float 0%float 0.125%float 1%float 1%float 0
                  Scenario.start (or_intror (or_introl eq_refl)))).
Defined.

(** X8. With assertions compiled in, a point whose global size is not
    [n_vars] stops each reporting method at the assertion
    [xp.get_size()==n_vars]: the hook is not invoked and the state is as
    before the call.  The sizes of the constraint blocks are not looked at
    yet. *)
Theorem user_callbacks_assert_point_size {T U} (interface_base : hiopInterfaceBase U)
        status iter obj_value (xp zl zu : hiopVectorPar) (c d yc yd : hiopVector)
        inf_pr inf_du mu alpha_du alpha_pr ls_trials (s : state T U) :
  vec_get_size xp <> n_vars (this s) ->
  user_callback_solution false interface_base status
                         (VectorPar xp) (VectorPar zl) (VectorPar zu) c d yc yd obj_value s
  = (AssertionFailure "xp.get_size()==n_vars", s)
  /\
  user_callback_iterate false interface_base iter obj_value
                        (VectorPar xp) (VectorPar zl) (VectorPar zu) c d yc yd
                        inf_pr inf_du mu alpha_du alpha_pr ls_trials s
  = (AssertionFailure "xp.get_size()==n_vars", s).
Proof.
  intros Hsize. apply Z.eqb_neq in Hsize.
  rewrite user_callback_solution_run, user_callback_iterate_run, Hsize.
  split; reflexivity.
Qed.

Lemma user_callbacks_assert_point_size_witness :
  user_callback_solution false Scenario.reporting 0
                         Edge.long_vec Scenario.zl_vec Scenario.zu_vec
                         (VectorPar (Scenario.vec Scenario.c_block))
                         (VectorPar (Scenario.vec Scenario.d_block))
                         (VectorPar (Scenario.vec Scenario.yc_block))
                         (VectorPar (Scenario.vec Scenario.yd_block))
                         12%float Scenario.start
  = (AssertionFailure "xp.get_size()==n_vars", Scenario.start).
Proof.
  refine (proj1 (user_callbacks_assert_point_size Scenario.reporting 0 3 12%float
                   (mkVectorPar 3 [0.5%float; 4%float; 2%float])
                   (Scenario.vec [0.25%float; 0%float])
                   (Scenario.vec [0%float; 0.75%float])
                   (VectorPar (Scenario.vec Scenario.c_block))
                   (VectorPar (Scenario.vec Scenario.d_block))
                   (VectorPar (Scenario.vec Scenario.yc_block))
                   (VectorPar (Scenario.vec Scenario.yd_block))
                   0%float 0%float 0.125%float 1%float 1%float 0
                   Scenario.start _)).
  simpl. discriminate.
Defined.

(** X9. With assertions compiled in and a point of the right size,
    constraint blocks whose sizes do not add up to [n_cons] stop each
    reporting method at the assertion [c.get_size()+d.get_size()==n_cons]:
    the hook is not invoked and the state is as before the call. *)
Theorem user_callbacks_assert_constraint_sizes {T U} (interface_base : hiopInterfaceBase U)
        status iter obj_value (xp zl zu : hiopVectorPar) (c d yc yd : hiopVector)
        inf_pr inf_du mu alpha_du alpha_pr ls_trials (s : state T U) :
  vec_get_size xp = n_vars (this s) ->
  add_ll (get_size c) (get_size d) <> n_cons (this s) ->
  user_callback_solution false interface_base status
                         (VectorPar xp) (VectorPar zl) (VectorPar zu) c d yc yd obj_value s
  = (AssertionFailure "c.get_size()+d.get_size()==n_cons", s)
  /\
  user_callback_iterate false interface_base iter obj_value
                        (VectorPar xp) (VectorPar zl) (VectorPar zu) c d yc yd
                        inf_pr inf_du mu alpha_du alpha_pr ls_trials s
  = (AssertionFailure "c.get_size()+d.get_size()==n_cons", s).
Proof.
  intros Hx Hcd. apply Z.eqb_neq in Hcd.
  rewrite user_callback_solution_run, user_callback_iterate_run, Hx, Z.eqb_refl, Hcd.
  split; reflexivity.
Qed.

Lemma user_callbacks_assert_constraint_sizes_witness :
  user_callback_iterate false Scenario.reporting 3 12%float
                        Scenario.x_vec Scenario.zl_vec Scenario.zu_vec
                        (VectorPar (Scenario.vec Scenario.c_block))
                        (VectorOther 3)
                        (VectorPar (Scenario.vec Scenario.yc_block))
                        (VectorPar (Scenario.vec Scenario.yd_block))
                        0%float 0%float 0.125%float 1%float 1%float 0 Scenario.start
  = (AssertionFailure "c.get_size()+d.get_size()==n_cons", Scenario.start).
Proof.
  refine (proj2 (user_callbacks_assert_constraint_sizes Scenario.reporting 0 3 12%float
                   (Scenario.vec Scenario.x0)
                   (Scenario.vec [0.25%float; 0%float])
                   (Scenario.vec [0%float; 0.75%float])
                   (VectorPar (Scenario.vec Scenario.c_block))
                   (VectorOther 3)
                   (VectorPar (Scenario.vec Scenario.yc_block))
                   (VectorPar (Scenario.vec Scenario.yd_block))
                   0%float 0%float 0.125%float 1%float 1%float 0
                   Scenario.start eq_refl _)).
  vm_compute. discriminate.
Defined.

(** ** The reporting callbacks: what they look at *)

(** X10. With [NDEBUG] no size is checked: once the three casts succeed,
    each reporting method invokes the hook exactly once, with [n_vars] and
    [n_cons] narrowed to [int] and the local arrays of the three vectors,
    also when the point does not have [n_vars] entries or the constraint
    blocks do not add up to [n_cons]. *)
Theorem user_callbacks_unchecked_report {T U} (interface_base : hiopInterfaceBase U)
        status iter obj_value (xp zl zu : hiopVectorPar) (c d yc yd : hiopVector)
        inf_pr inf_du mu alpha_du alpha_pr ls_trials (s : state T U) :
  user_callback_solution true interface_base status
                         (VectorPar xp) (VectorPar zl) (VectorPar zu) c d yc yd obj_value s
  = (Returned tt,
     mkState (this s)
             (solution_callback interface_base
                (mkSolArgs status (to_int (n_vars (this s)))
                           (local_data xp) (local_data zl) (local_data zu)
                           (to_int (n_cons (this s))) None None obj_value)
                (user s))
             (trace s ++
                [ev_solution_callback
                   (mkSolArgs status (to_int (n_vars (this s)))
                              (local_data xp) (local_data zl) (local_data zu)
                              (to_int (n_cons (this s))) None None obj_value)]))
  /\
  trace (snd (user_callback_iterate true interface_base iter obj_value
                                    (VectorPar xp) (VectorPar zl) (VectorPar zu)
                                    c d yc yd
                                    inf_pr inf_du mu alpha_du alpha_pr ls_trials s))
  = trace s ++
    [ev_iterate_callback
       (mkIterArgs iter obj_value (to_int (n_vars (this s)))
                   (local_data xp) (local_data zl) (local_data zu)
                   (to_int (n_cons (this s))) None None
                   inf_pr inf_du mu alpha_du alpha_pr ls_trials)].
Proof.
  rewrite user_callback_solution_run, user_callback_iterate_run.
  split; reflexivity.
Qed.

(** X11. The reporting methods read nothing of the multiplier vectors [yc]
    and [yd], and of the constraint vectors [c] and [d] only the sum of
    their sizes: two calls that differ in these four arguments alone, with
    the same sum of sizes, end the same way in the same state. *)
Theorem user_callbacks_ignore_constraint_data {T U} NDEBUG
        (interface_base : hiopInterfaceBase U)
        status iter obj_value (x z_L z_U c d yc yd c' d' yc' yd' : hiopVector)
        inf_pr inf_du mu alpha_du alpha_pr ls_trials (s : state T U) :
  add_ll (get_size c) (get_size d) = add_ll (get_size c') (get_size d') ->
  user_callback_solution NDEBUG interface_base status x z_L z_U c d yc yd obj_value s
  = user_callback_solution NDEBUG interface_base status x z_L z_U c' d' yc' yd' obj_value s
  /\
  user_callback_iterate NDEBUG interface_base iter obj_value x z_L z_U c d yc yd
                        inf_pr inf_du mu alpha_du alpha_pr ls_trials s
  = user_callback_iterate NDEBUG interface_base iter obj_value x z_L z_U c' d' yc' yd'
                          inf_pr inf_du mu alpha_du alpha_pr ls_trials s.
Proof.
  intros Hsizes.
  destruct x as [xp | nx]; [| split; reflexivity].
  destruct z_L as [zl | nl]; [| split; reflexivity].
  destruct z_U as [zu | nu]; [| split; reflexivity].
  rewrite !user_callback_solution_run, !user_callback_iterate_run, Hsizes.
  split; reflexivity.
Qed.

Lemma user_callbacks_ignore_constraint_data_witness :
  user_callback_solution false Scenario.reporting 0
                         Scenario.x_vec Scenario.zl_vec Scenario.zu_vec
                         (VectorOther 1) (VectorOther 3) (VectorOther 0) (VectorOther 7)
                         12%float Scenario.start
  = Scenario.solution_run.
Proof.
  exact (proj1 (user_callbacks_ignore_constraint_data false Scenario.reporting 0 3 12%float
                  Scenario.x_vec Scenario.zl_vec Scenario.zu_vec
                  (VectorOther 1) (VectorOther 3) (VectorOther 0) (VectorOther 7)
                  (VectorPar (Scenario.vec Scenario.c_block))
                  (VectorPar (Scenario.vec Scenario.d_block))
                  (VectorPar (Scenario.vec Scenario.yc_block))
                  (VectorPar (Scenario.vec Scenario.yd_block))
                  0%float 0%float 0.125%float 1%float 1%float 0
                  Scenario.start eq_refl)).
Defined.

Lemma to_int_bounds (z : Z) : INT_MIN <= to_int z <= INT_MAX.
Proof.
  unfold to_int, wrap, INT_MIN, INT_MAX.
  pose proof (Z.mod_pos_bound (z + 2 ^ (32 - 1)) (2 ^ 32) eq_refl) as Hmod.
  change (2 ^ 32) with 4294967296 in *. change (2 ^ (32 - 1)) with 2147483648 in *.
  change (2 ^ 31) with 2147483648. lia.
Qed.

Lemma to_int_fixed (z : Z) : to_int z = z <-> INT_MIN <= z <= INT_MAX.
Proof.
  split.
  - intros E. rewrite <- E. apply to_int_bounds.
  - apply to_int_in_range.
Qed.

(** X12. The counts the hook receives are [int] values: they equal
    [n_vars] and [n_cons] exactly when these fit in an [int]; a larger
    [long long] count reaches the hook as a different number. *)
Theorem user_callbacks_narrow_counts {T U} NDEBUG (interface_base : hiopInterfaceBase U)
        status (xp zl zu : hiopVectorPar) (c d yc yd : hiopVector) obj_value
        (s : state T U) :
  vec_get_size xp = n_vars (this s) ->
  add_ll (get_size c) (get_size d) = n_cons (this s) ->
  exists a,
    trace (snd (user_callback_solution NDEBUG interface_base status
                                       (VectorPar xp) (VectorPar zl) (VectorPar zu)
                                       c d yc yd obj_value s))
    = trace s ++ [ev_solution_callback a] /\
    INT_MIN <= sol_n a <= INT_MAX /\
    INT_MIN <= sol_m a <= INT_MAX /\
    (sol_n a = n_vars (this s) <-> INT_MIN <= n_vars (this s) <= INT_MAX) /\
    (sol_m a = n_cons (this s) <-> INT_MIN <= n_cons (this s) <= INT_MAX).
Proof.
  intros Hx Hcd.
  rewrite user_callback_solution_run, Hx, Hcd, !Z.eqb_refl, !orb_true_r.
  eexists. split; [reflexivity |]. simpl.
  split; [apply to_int_bounds |]. split; [apply to_int_bounds |].
  split; apply to_int_fixed.
Qed.

Lemma user_callbacks_narrow_counts_witness :
  exists a,
    trace (snd (user_callback_solution false Scenario.reporting 0
                                       (VectorPar Edge.large_x) Scenario.zl_vec
                                       Scenario.zu_vec
                                       (VectorOther 2) (VectorOther (2 ^ 32 + 2))
                                       (VectorOther 2) (VectorOther (2 ^ 32 + 2))
                                       12%float Edge.large_start))
    = [ev_solution_callback a] /\
    sol_n a <> 2 ^ 31 /\ sol_m a <> 2 ^ 32 + 4.
Proof.
  destruct (user_callbacks_narrow_counts false Scenario.reporting 0
              Edge.large_x (Scenario.vec [0.25%float; 0%float])
              (Scenario.vec [0%float; 0.75%float])
              (VectorOther 2) (VectorOther (2 ^ 32 + 2))
              (VectorOther 2) (VectorOther (2 ^ 32 + 2))
              12%float Edge.large_start eq_refl eq_refl)
    as [a [Htrace [_ [_ [Hn Hm]]]]].
  exists a. split; [exact Htrace |].
  split.
  - intros E. apply Hn in E. vm_compute in E. destruct E as [_ E]. apply E. reflexivity.
  - intros E. apply Hm in E. vm_compute in E. destruct E as [_ E]. apply E. reflexivity.
Defined.

(** ** From the internal point to the user's: bounds and frame *)




(** X15. When the array [applyTox] hands back and the caller's array both
    have exactly [n_post_local()] entries, the caller's array is, after
    [user_x], the user-side point. *)
Theorem user_x_exact_length {T U} `{NlpTransformations T}
        (hiop_x : hiopVectorPar) (buffer : list double) (s : state T U)
        (user_xa : list double) (t' : T) :
  applyTox (nlp_transformations (this s)) (local_data hiop_x) true = (user_xa, t') ->
  n_post_local t' = Z.of_nat (List.length user_xa) ->
  List.length buffer = List.length user_xa ->
  Z.of_nat (List.length user_xa) < 2 ^ 61 ->
  fst (user_x hiop_x buffer s) = Returned user_xa.
Proof.
  intros Happly Hn Hlen Hsmall.
  unfold user_x, bind, get_this, put_this. simpl.
  rewrite Happly. simpl. rewrite Hn.
  rewrite memcpy_doubles by lia.
  rewrite Nat2Z.id. simpl.
  rewrite firstn_all. rewrite <- Hlen. rewrite skipn_all. rewrite app_nil_r.
  reflexivity.
Qed.

Lemma user_x_exact_length_witness :
  fst (user_x (Scenario.vec Scenario.x0) [0%float; 0%float; 0%float] Scenario.start)
  = Returned [0.5%float; 4%float; 2%float].
Proof.
  apply (user_x_exact_length (Scenario.vec Scenario.x0) [0%float; 0%float; 0%float]
           Scenario.start [0.5%float; 4%float; 2%float] Scenario.chain_A).
  - reflexivity.
  - reflexivity.
  - reflexivity.
  - simpl. lia.
Defined.

(** ** MDS: what an evaluation leaves in the matrix *)

(** X16. When the handle downcasts and the user's callback returns, the
    handle the MDS [eval_Jac_c] and [eval_Jac_d] hand back is of the same
    class with the same sparse dimension, dense dimension and nonzero
    count, and its sparse arrays and dense block are the ones the callback
    wrote. *)
Theorem MDS_eval_Jac_keeps_shape {T U} NDEBUG (interface : hiopInterfaceMDS U)
        x new_x (Jac : hiopMatrix) (p : MDSBlocks) (s : state T U) :
  dynamic_cast_hiopMatrixMDS Jac = Some p ->
  (exists b p',
     fst (hiopNlpMDS.eval_Jac_c NDEBUG interface x new_x Jac s)
     = Returned (b, MatrixMDS p') /\
     n_sp p' = n_sp p /\ n_de p' = n_de p /\ sp_nnz p' = sp_nnz p /\
     let out := fst (eval_Jac_cons interface (Jac_c_request (this s) x new_x p) (user s)) in
     sp_irow p' = jac_iJacS' out /\ sp_jcol p' = jac_jJacS' out /\
     sp_M p' = jac_MJacS' out /\ de_local_data p' = jac_JacD' out)
  /\
  (exists b p',
     fst (hiopNlpMDS.eval_Jac_d NDEBUG interface x new_x Jac s)
     = Returned (b, MatrixMDS p') /\
     n_sp p' = n_sp p /\ n_de p' = n_de p /\ sp_nnz p' = sp_nnz p /\
     let out := fst (eval_Jac_cons interface (Jac_d_request (this s) x new_x p) (user s)) in
     sp_irow p' = jac_iJacS' out /\ sp_jcol p' = jac_jJacS' out /\
     sp_M p' = jac_MJacS' out /\ de_local_data p' = jac_JacD' out).
Proof.
  intros Hcast. apply cast_MDS_inv in Hcast. subst Jac.
  rewrite MDS_eval_Jac_c_run, MDS_eval_Jac_d_run. cbv zeta.
  split; do 2 eexists; (split; [reflexivity |]); simpl; repeat split.
Qed.

Lemma MDS_eval_Jac_keeps_shape_witness :
  exists b p',
    fst (hiopNlpMDS.eval_Jac_c false Scenario.block_diagonal Scenario.x0 true
                               (MatrixMDS Scenario.blocks) Scenario.start)
    = Returned (b, MatrixMDS p') /\
    n_sp p' = 1 /\ n_de p' = 1 /\ sp_nnz p' = 1.
Proof.
  destruct (MDS_eval_Jac_keeps_shape false Scenario.block_diagonal Scenario.x0 true
              (MatrixMDS Scenario.blocks) Scenario.blocks Scenario.start eq_refl)
    as [[b [p' [Hret [Hsp [Hde [Hnnz _]]]]]] _].
  exists b, p'. split; [exact Hret |].
  split; [exact Hsp |]. split; [exact Hde | exact Hnnz].
Defined.

(** ** The dense specialization: frame *)

(** X17. The dense specialization's [eval_Hess_Lagr] touches nothing in any
    build: formulation, user's state and trace are after the call what they
    were before.  With [NDEBUG] it reports success without evaluating
    anything: it returns [true] and the handle as it was, whatever the
    handle's class. *)
Theorem dense_eval_Hess_Lagr_unchecked_succeeds {T U} x new_x obj_factor lambda new_lambda
        (Hess_L : hiopMatrix) (s : state T U) :
  (forall NDEBUG,
     snd (hiopNlpDenseConstraints.eval_Hess_Lagr NDEBUG x new_x obj_factor lambda
                                                 new_lambda Hess_L s) = s)
  /\
  hiopNlpDenseConstraints.eval_Hess_Lagr true x new_x obj_factor lambda new_lambda Hess_L s
  = (Returned (true, Hess_L), s).
Proof.
  split; [intros [|]; reflexivity | reflexivity].
Qed.

(** X18. The dense [eval_Jac_c] and [eval_Jac_d] change the formulation
    object only if the evaluation on the raw rows does: when that
    evaluation leaves the object alone, so does the method, whatever the
    handle and however the call ends. *)
Theorem dense_eval_Jac_leaves_formulation {T U}
        (raw_c raw_d : list double -> bool -> list (list double) ->
                       M T U (bool * list (list double)))
        x new_x (Jac : hiopMatrix) (s : state T U) :
  (forall x' new_x' rows, preserves_this (raw_c x' new_x' rows)) ->
  (forall x' new_x' rows, preserves_this (raw_d x' new_x' rows)) ->
  this (snd (hiopNlpDenseConstraints.eval_Jac_c raw_c x new_x Jac s)) = this s /\
  this (snd (hiopNlpDenseConstraints.eval_Jac_d raw_d x new_x Jac s)) = this s.
Proof.
  intros Hc Hd.
  assert (Pc : preserves_this (hiopNlpDenseConstraints.eval_Jac_c raw_c x new_x Jac)).
  { unfold hiopNlpDenseConstraints.eval_Jac_c, log_printf, emit.
    destruct Jac; simpl; apply preserves_bind; intros; auto with frame;
      intros s0; reflexivity. }
  assert (Pd : preserves_this (hiopNlpDenseConstraints.eval_Jac_d raw_d x new_x Jac)).
  { unfold hiopNlpDenseConstraints.eval_Jac_d, log_printf, emit.
    destruct Jac; simpl; apply preserves_bind; intros; auto with frame;
      intros s0; reflexivity. }
  split; [apply Pc | apply Pd].
Qed.

Lemma dense_eval_Jac_leaves_formulation_witness :
  this (snd (hiopNlpDenseConstraints.eval_Jac_c Edge.raw_fails Scenario.x0 true
                                                (MatrixDense (mkMatrixDense [[2%float]]))
                                                Scenario.start))
  = Scenario.finalized.
Proof.
  refine (proj1 (dense_eval_Jac_leaves_formulation Edge.raw_fails Edge.raw_fails
                   Scenario.x0 true (MatrixDense (mkMatrixDense [[2%float]]))
                   Scenario.start _ _));
    intros x' new_x' rows s0; reflexivity.
Defined.

(** ** Assertions and valid calls *)

(** X19. On the MDS calls that satisfy the assertions the build makes no
    difference: with a handle that downcasts, [eval_Jac_c] and [eval_Jac_d]
    end the same way in the same state with and without [NDEBUG], and so
    does [eval_Hess_Lagr] when the callback reports a zero coupling count
    and hands back the sparse count it was given. *)
Theorem MDS_eval_build_independent {T U} (interface : hiopInterfaceMDS U)
        x new_x obj_factor lambda new_lambda (Jac Hess_L : hiopMatrix) (p q : MDSBlocks)
        (s : state T U) :
  dynamic_cast_hiopMatrixMDS Jac = Some p ->
  dynamic_cast_hiopMatrixSymBlockDiagMDS Hess_L = Some q ->
  hiopNlpMDS.eval_Jac_c true interface x new_x Jac s
  = hiopNlpMDS.eval_Jac_c false interface x new_x Jac s
  /\
  hiopNlpMDS.eval_Jac_d true interface x new_x Jac s
  = hiopNlpMDS.eval_Jac_d false interface x new_x Jac s
  /\
  (hess_nnzHSD'
     (fst (eval_Hess_Lagr_user interface
             (Hess_Lagr_request (this s) x new_x obj_factor lambda new_lambda q)
             (user s))) = 0 ->
   hess_nnzHSS'
     (fst (eval_Hess_Lagr_user interface
             (Hess_Lagr_request (this s) x new_x obj_factor lambda new_lambda q)
             (user s))) = sp_nnz q ->
   hiopNlpMDS.eval_Hess_Lagr true interface x new_x obj_factor lambda new_lambda Hess_L s
   = hiopNlpMDS.eval_Hess_Lagr false interface x new_x obj_factor lambda new_lambda
                               Hess_L s).
Proof.
  intros HJ HH.
  apply cast_MDS_inv in HJ. apply cast_SymBlockDiagMDS_inv in HH. subst Jac Hess_L.
  rewrite !MDS_eval_Jac_c_run, !MDS_eval_Jac_d_run, !MDS_eval_Hess_Lagr_run. cbv zeta.
  split; [reflexivity |]. split; [reflexivity |].
  intros HSD HSS. rewrite HSD, HSS, !Z.eqb_refl. reflexivity.
Qed.

Lemma MDS_eval_build_independent_witness :
  hiopNlpMDS.eval_Hess_Lagr true Scenario.block_diagonal Scenario.x0 true 1%float
                            Scenario.lambda0 true
                            (MatrixSymBlockDiagMDS Scenario.blocks) Scenario.start
  = hiopNlpMDS.eval_Hess_Lagr false Scenario.block_diagonal Scenario.x0 true 1%float
                              Scenario.lambda0 true
                              (MatrixSymBlockDiagMDS Scenario.blocks) Scenario.start.
Proof.
  exact (proj2 (proj2 (MDS_eval_build_independent Scenario.block_diagonal Scenario.x0 true
                         1%float Scenario.lambda0 true
                         (MatrixMDS Scenario.blocks)
                         (MatrixSymBlockDiagMDS Scenario.blocks)
                         Scenario.blocks Scenario.blocks Scenario.start
                         eq_refl eq_refl))
               eq_refl eq_refl).
Defined.

(** X20. On the reporting calls that satisfy the two size assertions the
    build makes no difference either: each method ends the same way in the
    same state with and without [NDEBUG], whatever the classes of the
    vectors. *)
Theorem user_callbacks_build_independent {T U} (interface_base : hiopInterfaceBase U)
        status iter obj_value (x z_L z_U c d yc yd : hiopVector)
        inf_pr inf_du mu alpha_du alpha_pr ls_trials (s : state T U) :
  get_size x = n_vars (this s) ->
  add_ll (get_size c) (get_size d) = n_cons (this s) ->
  user_callback_solution true interface_base status x z_L z_U c d yc yd obj_value s
  = user_callback_solution false interface_base status x z_L z_U c d yc yd obj_value s
  /\
  user_callback_iterate true interface_base iter obj_value x z_L z_U c d yc yd
                        inf_pr inf_du mu alpha_du alpha_pr ls_trials s
  = user_callback_iterate false interface_base iter obj_value x z_L z_U c d yc yd
                          inf_pr inf_du mu alpha_du alpha_pr ls_trials s.
Proof.
  intros Hx Hcd.
  destruct x as [xp | nx]; [| split; reflexivity].
  destruct z_L as [zl | nl]; [| split; reflexivity].
  destruct z_U as [zu | nu]; [| split; reflexivity].
  simpl in Hx.
  rewrite !user_callback_solution_run, !user_callback_iterate_run.
  rewrite Hx, Hcd, !Z.eqb_refl. split; reflexivity.
Qed.

Lemma user_callbacks_build_independent_witness :
  user_callback_solution true Scenario.reporting 0
                         Scenario.x_vec Scenario.zl_vec Scenario.zu_vec
                         (VectorPar (Scenario.vec Scenario.c_block))
                         (VectorPar (Scenario.vec Scenario.d_block))
                         (VectorPar (Scenario.vec Scenario.yc_block))
                         (VectorPar (Scenario.vec Scenario.yd_block))
                         12%float Scenario.start
  = Scenario.solution_run.
Proof.
  exact (proj1 (user_callbacks_build_independent Scenario.reporting 0 3 12%float
                  Scenario.x_vec Scenario.zl_vec Scenario.zu_vec
                  (VectorPar (Scenario.vec Scenario.c_block))
                  (VectorPar (Scenario.vec Scenario.d_block))
                  (VectorPar (Scenario.vec Scenario.yc_block))
                  (VectorPar (Scenario.vec Scenario.yd_block))
                  0%float 0%float 0.125%float 1%float 1%float 0
                  Scenario.start eq_refl eq_refl)).
Defined.
